(** * Sagemcom_Client: the router client of [sagemcom_api.py]

    A shallow embedding of the class [Sagemcom_Client] and of the parts of
    the Python run time it relies on (subscripting, truthiness, [str],
    [hashlib.md5], [hashlib.sha512], [random.randrange]), followed by the
    properties of the authentication key, the request counter, the nonce,
    the error paths, [login] and [parse_devices].

    Conventions.
    - A Python [str] is a Rocq [string] holding the text's UTF-8 bytes, so
      that [bytes(value, encoding='utf-8')] is the list of its characters'
      codes.  [str.upper] decodes that text and applies Unicode's full
      upper-case mapping, code point by code point.
    - A Python [int] is a [Z]; machine words inside the digests are [Z]
      reduced modulo [2^32] or [2^64].
    - A decoded JSON document is a [value]; a [dict] is a [gmap] keyed by
      strings.
    - A method that mutates [self] is a function of the state monad [M],
      which threads the client, the standard output and the requests put
      on the wire, and keeps the state reached when an exception is
      raised. *)

From Stdlib Require Import ZArith Lia Bool List Ascii String DecimalString.
From Stdlib Require Import Floats.SpecFloat.
From stdpp Require Import gmap strings list fin_maps.

Local Open Scope string_scope.
Local Open Scope Z_scope.

(* ===================================================================== *)
(** * Bytes and hexadecimal text *)
(* ===================================================================== *)

(** [bytes(value, encoding='utf-8')] on the UTF-8 view of a [str]. *)
Definition utf8 (value : string) : list Z :=
  (fun a : ascii => Z.of_N (N_of_ascii a)) <$> list_ascii_of_string value.

Definition hex_alphabet : list ascii := list_ascii_of_string "0123456789abcdef".

Definition hex_digit (n : Z) : ascii := nth (Z.to_nat (n mod 16)) hex_alphabet "0"%char.

(** The two lower-case hexadecimal characters of one byte. *)
Definition hex_byte (b : Z) : list ascii := [hex_digit (b / 16); hex_digit b].

(** [bytes.hex()] / [hexdigest()]: two characters per byte. *)
Definition hexlify (bs : list Z) : string :=
  string_of_list_ascii (concat (hex_byte <$> bs)).

Definition is_hex_char (a : ascii) : bool :=
  let n := N_of_ascii a in
  ((48 <=? n) && (n <=? 57) || (97 <=? n) && (n <=? 102))%N.

(** A hex digest of [n] bytes: [2 * n] characters, all of [0-9a-f]. *)
Definition is_hexdigest (n : nat) (s : string) : Prop :=
  String.length s = (2 * n)%nat /\ forallb is_hex_char (list_ascii_of_string s) = true.

(** [k] blocks of [n] items each, cut from the front of [l]. *)
Fixpoint blocks {A} (n k : nat) (l : list A) : list (list A) :=
  match k with
  | O => []
  | S k' => take n l :: blocks n k' (drop n l)
  end.

(** The [n] bytes of [x], least significant first. *)
Fixpoint bytes_le (n : nat) (x : Z) : list Z :=
  match n with
  | O => []
  | S n' => x mod 256 :: bytes_le n' (x / 256)
  end.

Definition bytes_be (n : nat) (x : Z) : list Z := rev (bytes_le n x).

Definition word_le (bs : list Z) : Z := foldr (fun b acc => b + 256 * acc) 0 bs.

Definition word_be (bs : list Z) : Z := fold_left (fun acc b => 256 * acc + b) bs 0.

(* ===================================================================== *)
(** * hashlib *)
(* ===================================================================== *)

Module hashlib.

(** ** MD5 (RFC 1321) *)

Definition w32 (x : Z) : Z := x mod 2 ^ 32.
Definition not32 (x : Z) : Z := Z.lxor x (2 ^ 32 - 1).
Definition rotl32 (x n : Z) : Z :=
  w32 (Z.lor (Z.shiftl x n) (Z.shiftr x (32 - n))).

Definition md5_K : list Z :=
  [ 0xd76aa478; 0xe8c7b756; 0x242070db; 0xc1bdceee;
    0xf57c0faf; 0x4787c62a; 0xa8304613; 0xfd469501;
    0x698098d8; 0x8b44f7af; 0xffff5bb1; 0x895cd7be;
    0x6b901122; 0xfd987193; 0xa679438e; 0x49b40821;
    0xf61e2562; 0xc040b340; 0x265e5a51; 0xe9b6c7aa;
    0xd62f105d; 0x2441453; 0xd8a1e681; 0xe7d3fbc8;
    0x21e1cde6; 0xc33707d6; 0xf4d50d87; 0x455a14ed;
    0xa9e3e905; 0xfcefa3f8; 0x676f02d9; 0x8d2a4c8a;
    0xfffa3942; 0x8771f681; 0x6d9d6122; 0xfde5380c;
    0xa4beea44; 0x4bdecfa9; 0xf6bb4b60; 0xbebfbc70;
    0x289b7ec6; 0xeaa127fa; 0xd4ef3085; 0x4881d05;
    0xd9d4d039; 0xe6db99e5; 0x1fa27cf8; 0xc4ac5665;
    0xf4292244; 0x432aff97; 0xab9423a7; 0xfc93a039;
    0x655b59c3; 0x8f0ccc92; 0xffeff47d; 0x85845dd1;
    0x6fa87e4f; 0xfe2ce6e0; 0xa3014314; 0x4e0811a1;
    0xf7537e82; 0xbd3af235; 0x2ad7d2bb; 0xeb86d391 ].

Definition md5_S : list Z :=
  [ 7; 12; 17; 22; 7; 12; 17; 22; 7; 12; 17; 22; 7; 12; 17; 22;
    5; 9; 14; 20; 5; 9; 14; 20; 5; 9; 14; 20; 5; 9; 14; 20;
    4; 11; 16; 23; 4; 11; 16; 23; 4; 11; 16; 23; 4; 11; 16; 23;
    6; 10; 15; 21; 6; 10; 15; 21; 6; 10; 15; 21; 6; 10; 15; 21 ].

Definition md5_state : Type := Z * Z * Z * Z.

Definition md5_init : md5_state := (0x67452301, 0xefcdab89, 0x98badcfe, 0x10325476).

(** One of the 64 operations on the words [m] of a block. *)
Definition md5_step (m : list Z) (st : md5_state) (i : nat) : md5_state :=
  let '(a, b, c, d) := st in
  let iz := Z.of_nat i in
  let '(f, g) :=
    if iz <? 16 then (Z.lor (Z.land b c) (Z.land (not32 b) d), iz)
    else if iz <? 32 then (Z.lor (Z.land d b) (Z.land (not32 d) c), (5 * iz + 1) mod 16)
    else if iz <? 48 then (Z.lxor (Z.lxor b c) d, (3 * iz + 5) mod 16)
    else (Z.lxor c (Z.lor b (not32 d)), (7 * iz) mod 16) in
  let f' := w32 (f + a + nth i md5_K 0 + nth (Z.to_nat g) m 0) in
  (d, w32 (b + rotl32 f' (nth i md5_S 0)), b, c).

Definition md5_block (st : md5_state) (block : list Z) : md5_state :=
  let m := word_le <$> blocks 4 16 block in
  let '(a, b, c, d) := st in
  let '(a', b', c', d') := fold_left (md5_step m) (seq 0 64) st in
  (w32 (a + a'), w32 (b + b'), w32 (c + c'), w32 (d + d')).

(** The message, a [0x80] byte, zeros up to 56 modulo 64, and the bit
    length on 8 bytes, least significant first. *)
Definition md5_pad (msg : list Z) : list Z :=
  let n := Z.of_nat (length msg) in
  msg ++ [0x80] ++ replicate (Z.to_nat ((55 - n) mod 64)) 0
      ++ bytes_le 8 ((8 * n) mod 2 ^ 64).

Definition md5_digest (msg : list Z) : list Z :=
  let padded := md5_pad msg in
  let '(a, b, c, d) :=
    fold_left md5_block (blocks 64 (length padded / 64) padded) md5_init in
  bytes_le 4 a ++ bytes_le 4 b ++ bytes_le 4 c ++ bytes_le 4 d.

(** [hashlib.md5(bytes_object).hexdigest()] *)
Definition md5 (bytes_object : list Z) : string := hexlify (md5_digest bytes_object).

(** ** SHA-512 (FIPS 180-4) *)

Definition w64 (x : Z) : Z := x mod 2 ^ 64.
Definition not64 (x : Z) : Z := Z.lxor x (2 ^ 64 - 1).
Definition rotr64 (x n : Z) : Z :=
  w64 (Z.lor (Z.shiftr x n) (Z.shiftl x (64 - n))).

Definition sha512_K : list Z :=
  [ 0x428a2f98d728ae22; 0x7137449123ef65cd;
    0xb5c0fbcfec4d3b2f; 0xe9b5dba58189dbbc;
    0x3956c25bf348b538; 0x59f111f1b605d019;
    0x923f82a4af194f9b; 0xab1c5ed5da6d8118;
    0xd807aa98a3030242; 0x12835b0145706fbe;
    0x243185be4ee4b28c; 0x550c7dc3d5ffb4e2;
    0x72be5d74f27b896f; 0x80deb1fe3b1696b1;
    0x9bdc06a725c71235; 0xc19bf174cf692694;
    0xe49b69c19ef14ad2; 0xefbe4786384f25e3;
    0xfc19dc68b8cd5b5; 0x240ca1cc77ac9c65;
    0x2de92c6f592b0275; 0x4a7484aa6ea6e483;
    0x5cb0a9dcbd41fbd4; 0x76f988da831153b5;
    0x983e5152ee66dfab; 0xa831c66d2db43210;
    0xb00327c898fb213f; 0xbf597fc7beef0ee4;
    0xc6e00bf33da88fc2; 0xd5a79147930aa725;
    0x6ca6351e003826f; 0x142929670a0e6e70;
    0x27b70a8546d22ffc; 0x2e1b21385c26c926;
    0x4d2c6dfc5ac42aed; 0x53380d139d95b3df;
    0x650a73548baf63de; 0x766a0abb3c77b2a8;
    0x81c2c92e47edaee6; 0x92722c851482353b;
    0xa2bfe8a14cf10364; 0xa81a664bbc423001;
    0xc24b8b70d0f89791; 0xc76c51a30654be30;
    0xd192e819d6ef5218; 0xd69906245565a910;
    0xf40e35855771202a; 0x106aa07032bbd1b8;
    0x19a4c116b8d2d0c8; 0x1e376c085141ab53;
    0x2748774cdf8eeb99; 0x34b0bcb5e19b48a8;
    0x391c0cb3c5c95a63; 0x4ed8aa4ae3418acb;
    0x5b9cca4f7763e373; 0x682e6ff3d6b2b8a3;
    0x748f82ee5defb2fc; 0x78a5636f43172f60;
    0x84c87814a1f0ab72; 0x8cc702081a6439ec;
    0x90befffa23631e28; 0xa4506cebde82bde9;
    0xbef9a3f7b2c67915; 0xc67178f2e372532b;
    0xca273eceea26619c; 0xd186b8c721c0c207;
    0xeada7dd6cde0eb1e; 0xf57d4f7fee6ed178;
    0x6f067aa72176fba; 0xa637dc5a2c898a6;
    0x113f9804bef90dae; 0x1b710b35131c471b;
    0x28db77f523047d84; 0x32caab7b40c72493;
    0x3c9ebe0a15c9bebc; 0x431d67c49c100d4c;
    0x4cc5d4becb3e42b6; 0x597f299cfc657e2a;
    0x5fcb6fab3ad6faec; 0x6c44198c4a475817 ].

Definition sha512_init : list Z :=
  [ 0x6a09e667f3bcc908; 0xbb67ae8584caa73b;
    0x3c6ef372fe94f82b; 0xa54ff53a5f1d36f1;
    0x510e527fade682d1; 0x9b05688c2b3e6c1f;
    0x1f83d9abfb41bd6b; 0x5be0cd19137e2179 ].

Definition small_sigma0 (x : Z) : Z :=
  Z.lxor (Z.lxor (rotr64 x 1) (rotr64 x 8)) (Z.shiftr x 7).
Definition small_sigma1 (x : Z) : Z :=
  Z.lxor (Z.lxor (rotr64 x 19) (rotr64 x 61)) (Z.shiftr x 6).
Definition big_sigma0 (x : Z) : Z :=
  Z.lxor (Z.lxor (rotr64 x 28) (rotr64 x 34)) (rotr64 x 39).
Definition big_sigma1 (x : Z) : Z :=
  Z.lxor (Z.lxor (rotr64 x 14) (rotr64 x 18)) (rotr64 x 41).
Definition Ch (x y z : Z) : Z := Z.lxor (Z.land x y) (Z.land (not64 x) z).
Definition Maj (x y z : Z) : Z :=
  Z.lxor (Z.lxor (Z.land x y) (Z.land x z)) (Z.land y z).

(** The message schedule: word [t] for [t >= 16] is computed from the
    words before it; [w] holds the words [0 .. t-1]. *)
Definition sha512_extend (w : list Z) (t : nat) : list Z :=
  w ++ [ w64 (small_sigma1 (nth (t - 2) w 0) + nth (t - 7) w 0
              + small_sigma0 (nth (t - 15) w 0) + nth (t - 16) w 0) ].

Definition sha512_schedule (block : list Z) : list Z :=
  fold_left sha512_extend (seq 16 64) (word_be <$> blocks 8 16 block).

(** One of the 80 rounds on the working variables [a .. h]. *)
Definition sha512_round (w : list Z) (v : list Z) (t : nat) : list Z :=
  match v with
  | [a; b; c; d; e; f; g; h] =>
      let t1 := h + big_sigma1 e + Ch e f g + nth t sha512_K 0 + nth t w 0 in
      let t2 := big_sigma0 a + Maj a b c in
      [w64 (t1 + t2); a; b; c; w64 (d + t1); e; f; g]
  | _ => v
  end.

Definition sha512_block (hs : list Z) (block : list Z) : list Z :=
  let w := sha512_schedule block in
  zip_with (fun x y => w64 (x + y)) hs (fold_left (sha512_round w) (seq 0 80) hs).

(** The message, a [0x80] byte, zeros up to 112 modulo 128, and the bit
    length on 16 bytes, most significant first. *)
Definition sha512_pad (msg : list Z) : list Z :=
  let n := Z.of_nat (length msg) in
  msg ++ [0x80] ++ replicate (Z.to_nat ((111 - n) mod 128)) 0
      ++ bytes_be 16 ((8 * n) mod 2 ^ 128).

Definition sha512_digest (msg : list Z) : list Z :=
  let padded := sha512_pad msg in
  let hs := fold_left sha512_block (blocks 128 (length padded / 128) padded) sha512_init in
  concat (bytes_be 8 <$> hs).

(** [hashlib.sha512(bytes_object).hexdigest()] *)
Definition sha512 (bytes_object : list Z) : string := hexlify (sha512_digest bytes_object).

End hashlib.

(* ===================================================================== *)
(** * Python values *)
(* ===================================================================== *)

(** What [response.json()] can hand back, and what the client stores of
    it. *)
#[warnings="-register-all"]
Inductive value : Type :=
| VNone
| VBool (b : bool)
| VInt (n : Z)
| VFloat (x : spec_float)
| VStr (s : string)
| VList (items : list value)
| VDict (entries : gmap string value).

(** The exceptions the client can meet. [ClientError] stands for what the
    HTTP transport raises when no response arrives, [JSONDecodeError] for
    what [response.json()] raises on a body it cannot decode. *)
Inductive exn : Type :=
| KeyError
| IndexError
| TypeError
| AttributeError
| ValueError
| UnboundLocalError
| ClientError
| JSONDecodeError.

Inductive result (A : Type) : Type :=
| Ok (a : A)
| Raise (e : exn).

Arguments Ok {A} a.
Arguments Raise {A} e.

Definition rbind {A B} (r : result A) (k : A -> result B) : result B :=
  match r with
  | Ok a => k a
  | Raise e => Raise e
  end.

Notation "x <-? r ;; k" := (rbind r (fun x => k))
  (at level 100, r at next level, right associativity, only parsing).

(** A subscript: the code only ever writes string literals and the integer
    [index]. *)
Inductive key : Type :=
| KStr (s : string)
| KInt (i : Z).

(** [seq[i]] on a sequence of length [len]: the position counted from the
    front, negative [i] counting from the back. *)
Definition position (len : nat) (i : Z) : option nat :=
  let n := Z.of_nat len in
  if (0 <=? i) && (i <? n) then Some (Z.to_nat i)
  else if (- n <=? i) && (i <? 0) then Some (Z.to_nat (i + n))
  else None.

(** [o[k]] *)
Definition subscript (o : value) (k : key) : result value :=
  match o, k with
  | VDict entries, KStr s =>
      match entries !! s with
      | Some v => Ok v
      | None => Raise KeyError
      end
  | VDict _, KInt _ => Raise KeyError
  | VList items, KInt i =>
      match position (length items) i ≫= (items !!.) with
      | Some v => Ok v
      | None => Raise IndexError
      end
  | VList _, KStr _ => Raise TypeError
  | VStr s, KInt i =>
      match position (String.length s) i ≫= (fun n => String.get n s) with
      | Some c => Ok (VStr (String c EmptyString))
      | None => Raise IndexError
      end
  | VStr _, KStr _ => Raise TypeError
  | _, _ => Raise TypeError
  end.

Notation "o .[ k ]" := (subscript o (KStr k)) (at level 1, k at level 200, format "o .[ k ]").
Notation "o .[# i ]" := (subscript o (KInt i)) (at level 1, i at level 200, format "o .[# i ]").

(** [bool(o)] *)
Definition truthy (o : value) : bool :=
  match o with
  | VNone => false
  | VBool b => b
  | VInt n => negb (n =? 0)
  | VFloat x => match x with S754_zero _ => false | _ => true end
  | VStr s => negb (String.eqb s "")
  | VList items => match items with [] => false | _ => true end
  | VDict entries => negb (bool_decide (entries = ∅))
  end.

(** [o is not None] *)
Definition is_not_None (o : value) : bool :=
  match o with
  | VNone => false
  | _ => true
  end.

(** [o != s] for a string literal [s] *)
Definition ne_str (o : value) (s : string) : bool :=
  match o with
  | VStr s' => negb (String.eqb s' s)
  | _ => true
  end.

(** [a or b], [b] being evaluated only when [a] is falsy. *)
Definition or_else (a : value) (b : result value) : result value :=
  if truthy a then Ok a else b.

(** [str(n)] for an [int] *)
Definition str_int (n : Z) : string := NilZero.string_of_int (Z.to_int n).

Definition upper_char (c : ascii) : ascii :=
  let n := N_of_ascii c in
  if ((97 <=? n) && (n <=? 122))%N then ascii_of_N (n - 32) else c.

(** The code of a character of the UTF-8 text, and the character of a
    code. *)
Definition code (c : ascii) : Z := Z.of_N (N_of_ascii c).

Definition byte_chr (b : Z) : ascii := ascii_of_N (Z.to_N b).

Definition is_continuation (b : Z) : bool := (0x80 <=? b) && (b <=? 0xBF).

(** The code point a well-formed sequence of two, three or four bytes
    encodes (no overlong form, no surrogate, nothing above U+10FFFF). *)
Definition decode2 (b0 b1 : Z) : option Z :=
  if (0xC2 <=? b0) && (b0 <=? 0xDF) && is_continuation b1
  then Some ((b0 - 0xC0) * 64 + (b1 - 0x80))
  else None.

Definition decode3 (b0 b1 b2 : Z) : option Z :=
  let cp := (b0 - 0xE0) * 4096 + (b1 - 0x80) * 64 + (b2 - 0x80) in
  if (0xE0 <=? b0) && (b0 <=? 0xEF) && is_continuation b1 && is_continuation b2
     && (0x800 <=? cp) && negb ((0xD800 <=? cp) && (cp <=? 0xDFFF))
  then Some cp
  else None.

Definition decode4 (b0 b1 b2 b3 : Z) : option Z :=
  let cp := (b0 - 0xF0) * 262144 + (b1 - 0x80) * 4096 + (b2 - 0x80) * 64 + (b3 - 0x80) in
  if (0xF0 <=? b0) && (b0 <=? 0xF4) && is_continuation b1 && is_continuation b2
     && is_continuation b3 && (0x10000 <=? cp) && (cp <=? 0x10FFFF)
  then Some cp
  else None.

(** The UTF-8 bytes of a code point. *)
Definition encode (cp : Z) : list ascii :=
  if cp <? 0x80 then [byte_chr cp]
  else if cp <? 0x800 then
    [byte_chr (0xC0 + cp / 64); byte_chr (0x80 + cp mod 64)]
  else if cp <? 0x10000 then
    [byte_chr (0xE0 + cp / 4096); byte_chr (0x80 + (cp / 64) mod 64);
     byte_chr (0x80 + cp mod 64)]
  else
    [byte_chr (0xF0 + cp / 262144); byte_chr (0x80 + (cp / 4096) mod 64);
     byte_chr (0x80 + (cp / 64) mod 64); byte_chr (0x80 + cp mod 64)].

(** The full upper-case mapping of the code points above U+007F that have
    one, as CPython 3.11 ships it (Unicode 14.0): each such code point
    with the one, two or three code points [str.upper] puts in its place.
    The mapping depends on no neighbour of the character. *)
Definition unicode_upper : list (Z * list Z) :=
  [
    (181, [924]); (223, [83; 83]); (224, [192]); (225, [193]); (226, [194]); (227, [195]);
    (228, [196]); (229, [197]); (230, [198]); (231, [199]); (232, [200]); (233, [201]);
    (234, [202]); (235, [203]); (236, [204]); (237, [205]); (238, [206]); (239, [207]);
    (240, [208]); (241, [209]); (242, [210]); (243, [211]); (244, [212]); (245, [213]);
    (246, [214]); (248, [216]); (249, [217]); (250, [218]); (251, [219]); (252, [220]);
    (253, [221]); (254, [222]); (255, [376]); (257, [256]); (259, [258]); (261, [260]);
    (263, [262]); (265, [264]); (267, [266]); (269, [268]); (271, [270]); (273, [272]);
    (275, [274]); (277, [276]); (279, [278]); (281, [280]); (283, [282]); (285, [284]);
    (287, [286]); (289, [288]); (291, [290]); (293, [292]); (295, [294]); (297, [296]);
    (299, [298]); (301, [300]); (303, [302]); (305, [73]); (307, [306]); (309, [308]);
    (311, [310]); (314, [313]); (316, [315]); (318, [317]); (320, [319]); (322, [321]);
    (324, [323]); (326, [325]); (328, [327]); (329, [700; 78]); (331, [330]); (333, [332]);
    (335, [334]); (337, [336]); (339, [338]); (341, [340]); (343, [342]); (345, [344]);
    (347, [346]); (349, [348]); (351, [350]); (353, [352]); (355, [354]); (357, [356]);
    (359, [358]); (361, [360]); (363, [362]); (365, [364]); (367, [366]); (369, [368]);
    (371, [370]); (373, [372]); (375, [374]); (378, [377]); (380, [379]); (382, [381]);
    (383, [83]); (384, [579]); (387, [386]); (389, [388]); (392, [391]); (396, [395]);
    (402, [401]); (405, [502]); (409, [408]); (410, [573]); (414, [544]); (417, [416]);
    (419, [418]); (421, [420]); (424, [423]); (429, [428]); (432, [431]); (436, [435]);
    (438, [437]); (441, [440]); (445, [444]); (447, [503]); (453, [452]); (454, [452]);
    (456, [455]); (457, [455]); (459, [458]); (460, [458]); (462, [461]); (464, [463]);
    (466, [465]); (468, [467]); (470, [469]); (472, [471]); (474, [473]); (476, [475]);
    (477, [398]); (479, [478]); (481, [480]); (483, [482]); (485, [484]); (487, [486]);
    (489, [488]); (491, [490]); (493, [492]); (495, [494]); (496, [74; 780]); (498, [497]);
    (499, [497]); (501, [500]); (505, [504]); (507, [506]); (509, [508]); (511, [510]);
    (513, [512]); (515, [514]); (517, [516]); (519, [518]); (521, [520]); (523, [522]);
    (525, [524]); (527, [526]); (529, [528]); (531, [530]); (533, [532]); (535, [534]);
    (537, [536]); (539, [538]); (541, [540]); (543, [542]); (547, [546]); (549, [548]);
    (551, [550]); (553, [552]); (555, [554]); (557, [556]); (559, [558]); (561, [560]);
    (563, [562]); (572, [571]); (575, [11390]); (576, [11391]); (578, [577]); (583, [582]);
    (585, [584]); (587, [586]); (589, [588]); (591, [590]); (592, [11375]); (593, [11373]);
    (594, [11376]); (595, [385]); (596, [390]); (598, [393]); (599, [394]); (601, [399]);
    (603, [400]); (604, [42923]); (608, [403]); (609, [42924]); (611, [404]); (613, [42893]);
    (614, [42922]); (616, [407]); (617, [406]); (618, [42926]); (619, [11362]); (620, [42925]);
    (623, [412]); (625, [11374]); (626, [413]); (629, [415]); (637, [11364]); (640, [422]);
    (642, [42949]); (643, [425]); (647, [42929]); (648, [430]); (649, [580]); (650, [433]);
    (651, [434]); (652, [581]); (658, [439]); (669, [42930]); (670, [42928]); (837, [921]);
    (881, [880]); (883, [882]); (887, [886]); (891, [1021]); (892, [1022]); (893, [1023]);
    (912, [921; 776; 769]); (940, [902]); (941, [904]); (942, [905]); (943, [906]);
    (944, [933; 776; 769]); (945, [913]); (946, [914]); (947, [915]); (948, [916]); (949, [917]);
    (950, [918]); (951, [919]); (952, [920]); (953, [921]); (954, [922]); (955, [923]);
    (956, [924]); (957, [925]); (958, [926]); (959, [927]); (960, [928]); (961, [929]);
    (962, [931]); (963, [931]); (964, [932]); (965, [933]); (966, [934]); (967, [935]);
    (968, [936]); (969, [937]); (970, [938]); (971, [939]); (972, [908]); (973, [910]);
    (974, [911]); (976, [914]); (977, [920]); (981, [934]); (982, [928]); (983, [975]);
    (985, [984]); (987, [986]); (989, [988]); (991, [990]); (993, [992]); (995, [994]);
    (997, [996]); (999, [998]); (1001, [1000]); (1003, [1002]); (1005, [1004]); (1007, [1006]);
    (1008, [922]); (1009, [929]); (1010, [1017]); (1011, [895]); (1013, [917]); (1016, [1015]);
    (1019, [1018]); (1072, [1040]); (1073, [1041]); (1074, [1042]); (1075, [1043]);
    (1076, [1044]); (1077, [1045]); (1078, [1046]); (1079, [1047]); (1080, [1048]);
    (1081, [1049]); (1082, [1050]); (1083, [1051]); (1084, [1052]); (1085, [1053]);
    (1086, [1054]); (1087, [1055]); (1088, [1056]); (1089, [1057]); (1090, [1058]);
    (1091, [1059]); (1092, [1060]); (1093, [1061]); (1094, [1062]); (1095, [1063]);
    (1096, [1064]); (1097, [1065]); (1098, [1066]); (1099, [1067]); (1100, [1068]);
    (1101, [1069]); (1102, [1070]); (1103, [1071]); (1104, [1024]); (1105, [1025]);
    (1106, [1026]); (1107, [1027]); (1108, [1028]); (1109, [1029]); (1110, [1030]);
    (1111, [1031]); (1112, [1032]); (1113, [1033]); (1114, [1034]); (1115, [1035]);
    (1116, [1036]); (1117, [1037]); (1118, [1038]); (1119, [1039]); (1121, [1120]);
    (1123, [1122]); (1125, [1124]); (1127, [1126]); (1129, [1128]); (1131, [1130]);
    (1133, [1132]); (1135, [1134]); (1137, [1136]); (1139, [1138]); (1141, [1140]);
    (1143, [1142]); (1145, [1144]); (1147, [1146]); (1149, [1148]); (1151, [1150]);
    (1153, [1152]); (1163, [1162]); (1165, [1164]); (1167, [1166]); (1169, [1168]);
    (1171, [1170]); (1173, [1172]); (1175, [1174]); (1177, [1176]); (1179, [1178]);
    (1181, [1180]); (1183, [1182]); (1185, [1184]); (1187, [1186]); (1189, [1188]);
    (1191, [1190]); (1193, [1192]); (1195, [1194]); (1197, [1196]); (1199, [1198]);
    (1201, [1200]); (1203, [1202]); (1205, [1204]); (1207, [1206]); (1209, [1208]);
    (1211, [1210]); (1213, [1212]); (1215, [1214]); (1218, [1217]); (1220, [1219]);
    (1222, [1221]); (1224, [1223]); (1226, [1225]); (1228, [1227]); (1230, [1229]);
    (1231, [1216]); (1233, [1232]); (1235, [1234]); (1237, [1236]); (1239, [1238]);
    (1241, [1240]); (1243, [1242]); (1245, [1244]); (1247, [1246]); (1249, [1248]);
    (1251, [1250]); (1253, [1252]); (1255, [1254]); (1257, [1256]); (1259, [1258]);
    (1261, [1260]); (1263, [1262]); (1265, [1264]); (1267, [1266]); (1269, [1268]);
    (1271, [1270]); (1273, [1272]); (1275, [1274]); (1277, [1276]); (1279, [1278]);
    (1281, [1280]); (1283, [1282]); (1285, [1284]); (1287, [1286]); (1289, [1288]);
    (1291, [1290]); (1293, [1292]); (1295, [1294]); (1297, [1296]); (1299, [1298]);
    (1301, [1300]); (1303, [1302]); (1305, [1304]); (1307, [1306]); (1309, [1308]);
    (1311, [1310]); (1313, [1312]); (1315, [1314]); (1317, [1316]); (1319, [1318]);
    (1321, [1320]); (1323, [1322]); (1325, [1324]); (1327, [1326]); (1377, [1329]);
    (1378, [1330]); (1379, [1331]); (1380, [1332]); (1381, [1333]); (1382, [1334]);
    (1383, [1335]); (1384, [1336]); (1385, [1337]); (1386, [1338]); (1387, [1339]);
    (1388, [1340]); (1389, [1341]); (1390, [1342]); (1391, [1343]); (1392, [1344]);
    (1393, [1345]); (1394, [1346]); (1395, [1347]); (1396, [1348]); (1397, [1349]);
    (1398, [1350]); (1399, [1351]); (1400, [1352]); (1401, [1353]); (1402, [1354]);
    (1403, [1355]); (1404, [1356]); (1405, [1357]); (1406, [1358]); (1407, [1359]);
    (1408, [1360]); (1409, [1361]); (1410, [1362]); (1411, [1363]); (1412, [1364]);
    (1413, [1365]); (1414, [1366]); (1415, [1333; 1362]); (4304, [7312]); (4305, [7313]);
    (4306, [7314]); (4307, [7315]); (4308, [7316]); (4309, [7317]); (4310, [7318]);
    (4311, [7319]); (4312, [7320]); (4313, [7321]); (4314, [7322]); (4315, [7323]);
    (4316, [7324]); (4317, [7325]); (4318, [7326]); (4319, [7327]); (4320, [7328]);
    (4321, [7329]); (4322, [7330]); (4323, [7331]); (4324, [7332]); (4325, [7333]);
    (4326, [7334]); (4327, [7335]); (4328, [7336]); (4329, [7337]); (4330, [7338]);
    (4331, [7339]); (4332, [7340]); (4333, [7341]); (4334, [7342]); (4335, [7343]);
    (4336, [7344]); (4337, [7345]); (4338, [7346]); (4339, [7347]); (4340, [7348]);
    (4341, [7349]); (4342, [7350]); (4343, [7351]); (4344, [7352]); (4345, [7353]);
    (4346, [7354]); (4349, [7357]); (4350, [7358]); (4351, [7359]); (5112, [5104]);
    (5113, [5105]); (5114, [5106]); (5115, [5107]); (5116, [5108]); (5117, [5109]);
    (7296, [1042]); (7297, [1044]); (7298, [1054]); (7299, [1057]); (7300, [1058]);
    (7301, [1058]); (7302, [1066]); (7303, [1122]); (7304, [42570]); (7545, [42877]);
    (7549, [11363]); (7566, [42950]); (7681, [7680]); (7683, [7682]); (7685, [7684]);
    (7687, [7686]); (7689, [7688]); (7691, [7690]); (7693, [7692]); (7695, [7694]);
    (7697, [7696]); (7699, [7698]); (7701, [7700]); (7703, [7702]); (7705, [7704]);
    (7707, [7706]); (7709, [7708]); (7711, [7710]); (7713, [7712]); (7715, [7714]);
    (7717, [7716]); (7719, [7718]); (7721, [7720]); (7723, [7722]); (7725, [7724]);
    (7727, [7726]); (7729, [7728]); (7731, [7730]); (7733, [7732]); (7735, [7734]);
    (7737, [7736]); (7739, [7738]); (7741, [7740]); (7743, [7742]); (7745, [7744]);
    (7747, [7746]); (7749, [7748]); (7751, [7750]); (7753, [7752]); (7755, [7754]);
    (7757, [7756]); (7759, [7758]); (7761, [7760]); (7763, [7762]); (7765, [7764]);
    (7767, [7766]); (7769, [7768]); (7771, [7770]); (7773, [7772]); (7775, [7774]);
    (7777, [7776]); (7779, [7778]); (7781, [7780]); (7783, [7782]); (7785, [7784]);
    (7787, [7786]); (7789, [7788]); (7791, [7790]); (7793, [7792]); (7795, [7794]);
    (7797, [7796]); (7799, [7798]); (7801, [7800]); (7803, [7802]); (7805, [7804]);
    (7807, [7806]); (7809, [7808]); (7811, [7810]); (7813, [7812]); (7815, [7814]);
    (7817, [7816]); (7819, [7818]); (7821, [7820]); (7823, [7822]); (7825, [7824]);
    (7827, [7826]); (7829, [7828]); (7830, [72; 817]); (7831, [84; 776]); (7832, [87; 778]);
    (7833, [89; 778]); (7834, [65; 702]); (7835, [7776]); (7841, [7840]); (7843, [7842]);
    (7845, [7844]); (7847, [7846]); (7849, [7848]); (7851, [7850]); (7853, [7852]);
    (7855, [7854]); (7857, [7856]); (7859, [7858]); (7861, [7860]); (7863, [7862]);
    (7865, [7864]); (7867, [7866]); (7869, [7868]); (7871, [7870]); (7873, [7872]);
    (7875, [7874]); (7877, [7876]); (7879, [7878]); (7881, [7880]); (7883, [7882]);
    (7885, [7884]); (7887, [7886]); (7889, [7888]); (7891, [7890]); (7893, [7892]);
    (7895, [7894]); (7897, [7896]); (7899, [7898]); (7901, [7900]); (7903, [7902]);
    (7905, [7904]); (7907, [7906]); (7909, [7908]); (7911, [7910]); (7913, [7912]);
    (7915, [7914]); (7917, [7916]); (7919, [7918]); (7921, [7920]); (7923, [7922]);
    (7925, [7924]); (7927, [7926]); (7929, [7928]); (7931, [7930]); (7933, [7932]);
    (7935, [7934]); (7936, [7944]); (7937, [7945]); (7938, [7946]); (7939, [7947]);
    (7940, [7948]); (7941, [7949]); (7942, [7950]); (7943, [7951]); (7952, [7960]);
    (7953, [7961]); (7954, [7962]); (7955, [7963]); (7956, [7964]); (7957, [7965]);
    (7968, [7976]); (7969, [7977]); (7970, [7978]); (7971, [7979]); (7972, [7980]);
    (7973, [7981]); (7974, [7982]); (7975, [7983]); (7984, [7992]); (7985, [7993]);
    (7986, [7994]); (7987, [7995]); (7988, [7996]); (7989, [7997]); (7990, [7998]);
    (7991, [7999]); (8000, [8008]); (8001, [8009]); (8002, [8010]); (8003, [8011]);
    (8004, [8012]); (8005, [8013]); (8016, [933; 787]); (8017, [8025]); (8018, [933; 787; 768]);
    (8019, [8027]); (8020, [933; 787; 769]); (8021, [8029]); (8022, [933; 787; 834]);
    (8023, [8031]); (8032, [8040]); (8033, [8041]); (8034, [8042]); (8035, [8043]);
    (8036, [8044]); (8037, [8045]); (8038, [8046]); (8039, [8047]); (8048, [8122]);
    (8049, [8123]); (8050, [8136]); (8051, [8137]); (8052, [8138]); (8053, [8139]);
    (8054, [8154]); (8055, [8155]); (8056, [8184]); (8057, [8185]); (8058, [8170]);
    (8059, [8171]); (8060, [8186]); (8061, [8187]); (8064, [7944; 921]); (8065, [7945; 921]);
    (8066, [7946; 921]); (8067, [7947; 921]); (8068, [7948; 921]); (8069, [7949; 921]);
    (8070, [7950; 921]); (8071, [7951; 921]); (8072, [7944; 921]); (8073, [7945; 921]);
    (8074, [7946; 921]); (8075, [7947; 921]); (8076, [7948; 921]); (8077, [7949; 921]);
    (8078, [7950; 921]); (8079, [7951; 921]); (8080, [7976; 921]); (8081, [7977; 921]);
    (8082, [7978; 921]); (8083, [7979; 921]); (8084, [7980; 921]); (8085, [7981; 921]);
    (8086, [7982; 921]); (8087, [7983; 921]); (8088, [7976; 921]); (8089, [7977; 921]);
    (8090, [7978; 921]); (8091, [7979; 921]); (8092, [7980; 921]); (8093, [7981; 921]);
    (8094, [7982; 921]); (8095, [7983; 921]); (8096, [8040; 921]); (8097, [8041; 921]);
    (8098, [8042; 921]); (8099, [8043; 921]); (8100, [8044; 921]); (8101, [8045; 921]);
    (8102, [8046; 921]); (8103, [8047; 921]); (8104, [8040; 921]); (8105, [8041; 921]);
    (8106, [8042; 921]); (8107, [8043; 921]); (8108, [8044; 921]); (8109, [8045; 921]);
    (8110, [8046; 921]); (8111, [8047; 921]); (8112, [8120]); (8113, [8121]); (8114, [8122; 921]);
    (8115, [913; 921]); (8116, [902; 921]); (8118, [913; 834]); (8119, [913; 834; 921]);
    (8124, [913; 921]); (8126, [921]); (8130, [8138; 921]); (8131, [919; 921]);
    (8132, [905; 921]); (8134, [919; 834]); (8135, [919; 834; 921]); (8140, [919; 921]);
    (8144, [8152]); (8145, [8153]); (8146, [921; 776; 768]); (8147, [921; 776; 769]);
    (8150, [921; 834]); (8151, [921; 776; 834]); (8160, [8168]); (8161, [8169]);
    (8162, [933; 776; 768]); (8163, [933; 776; 769]); (8164, [929; 787]); (8165, [8172]);
    (8166, [933; 834]); (8167, [933; 776; 834]); (8178, [8186; 921]); (8179, [937; 921]);
    (8180, [911; 921]); (8182, [937; 834]); (8183, [937; 834; 921]); (8188, [937; 921]);
    (8526, [8498]); (8560, [8544]); (8561, [8545]); (8562, [8546]); (8563, [8547]);
    (8564, [8548]); (8565, [8549]); (8566, [8550]); (8567, [8551]); (8568, [8552]);
    (8569, [8553]); (8570, [8554]); (8571, [8555]); (8572, [8556]); (8573, [8557]);
    (8574, [8558]); (8575, [8559]); (8580, [8579]); (9424, [9398]); (9425, [9399]);
    (9426, [9400]); (9427, [9401]); (9428, [9402]); (9429, [9403]); (9430, [9404]);
    (9431, [9405]); (9432, [9406]); (9433, [9407]); (9434, [9408]); (9435, [9409]);
    (9436, [9410]); (9437, [9411]); (9438, [9412]); (9439, [9413]); (9440, [9414]);
    (9441, [9415]); (9442, [9416]); (9443, [9417]); (9444, [9418]); (9445, [9419]);
    (9446, [9420]); (9447, [9421]); (9448, [9422]); (9449, [9423]); (11312, [11264]);
    (11313, [11265]); (11314, [11266]); (11315, [11267]); (11316, [11268]); (11317, [11269]);
    (11318, [11270]); (11319, [11271]); (11320, [11272]); (11321, [11273]); (11322, [11274]);
    (11323, [11275]); (11324, [11276]); (11325, [11277]); (11326, [11278]); (11327, [11279]);
    (11328, [11280]); (11329, [11281]); (11330, [11282]); (11331, [11283]); (11332, [11284]);
    (11333, [11285]); (11334, [11286]); (11335, [11287]); (11336, [11288]); (11337, [11289]);
    (11338, [11290]); (11339, [11291]); (11340, [11292]); (11341, [11293]); (11342, [11294]);
    (11343, [11295]); (11344, [11296]); (11345, [11297]); (11346, [11298]); (11347, [11299]);
    (11348, [11300]); (11349, [11301]); (11350, [11302]); (11351, [11303]); (11352, [11304]);
    (11353, [11305]); (11354, [11306]); (11355, [11307]); (11356, [11308]); (11357, [11309]);
    (11358, [11310]); (11359, [11311]); (11361, [11360]); (11365, [570]); (11366, [574]);
    (11368, [11367]); (11370, [11369]); (11372, [11371]); (11379, [11378]); (11382, [11381]);
    (11393, [11392]); (11395, [11394]); (11397, [11396]); (11399, [11398]); (11401, [11400]);
    (11403, [11402]); (11405, [11404]); (11407, [11406]); (11409, [11408]); (11411, [11410]);
    (11413, [11412]); (11415, [11414]); (11417, [11416]); (11419, [11418]); (11421, [11420]);
    (11423, [11422]); (11425, [11424]); (11427, [11426]); (11429, [11428]); (11431, [11430]);
    (11433, [11432]); (11435, [11434]); (11437, [11436]); (11439, [11438]); (11441, [11440]);
    (11443, [11442]); (11445, [11444]); (11447, [11446]); (11449, [11448]); (11451, [11450]);
    (11453, [11452]); (11455, [11454]); (11457, [11456]); (11459, [11458]); (11461, [11460]);
    (11463, [11462]); (11465, [11464]); (11467, [11466]); (11469, [11468]); (11471, [11470]);
    (11473, [11472]); (11475, [11474]); (11477, [11476]); (11479, [11478]); (11481, [11480]);
    (11483, [11482]); (11485, [11484]); (11487, [11486]); (11489, [11488]); (11491, [11490]);
    (11500, [11499]); (11502, [11501]); (11507, [11506]); (11520, [4256]); (11521, [4257]);
    (11522, [4258]); (11523, [4259]); (11524, [4260]); (11525, [4261]); (11526, [4262]);
    (11527, [4263]); (11528, [4264]); (11529, [4265]); (11530, [4266]); (11531, [4267]);
    (11532, [4268]); (11533, [4269]); (11534, [4270]); (11535, [4271]); (11536, [4272]);
    (11537, [4273]); (11538, [4274]); (11539, [4275]); (11540, [4276]); (11541, [4277]);
    (11542, [4278]); (11543, [4279]); (11544, [4280]); (11545, [4281]); (11546, [4282]);
    (11547, [4283]); (11548, [4284]); (11549, [4285]); (11550, [4286]); (11551, [4287]);
    (11552, [4288]); (11553, [4289]); (11554, [4290]); (11555, [4291]); (11556, [4292]);
    (11557, [4293]); (11559, [4295]); (11565, [4301]); (42561, [42560]); (42563, [42562]);
    (42565, [42564]); (42567, [42566]); (42569, [42568]); (42571, [42570]); (42573, [42572]);
    (42575, [42574]); (42577, [42576]); (42579, [42578]); (42581, [42580]); (42583, [42582]);
    (42585, [42584]); (42587, [42586]); (42589, [42588]); (42591, [42590]); (42593, [42592]);
    (42595, [42594]); (42597, [42596]); (42599, [42598]); (42601, [42600]); (42603, [42602]);
    (42605, [42604]); (42625, [42624]); (42627, [42626]); (42629, [42628]); (42631, [42630]);
    (42633, [42632]); (42635, [42634]); (42637, [42636]); (42639, [42638]); (42641, [42640]);
    (42643, [42642]); (42645, [42644]); (42647, [42646]); (42649, [42648]); (42651, [42650]);
    (42787, [42786]); (42789, [42788]); (42791, [42790]); (42793, [42792]); (42795, [42794]);
    (42797, [42796]); (42799, [42798]); (42803, [42802]); (42805, [42804]); (42807, [42806]);
    (42809, [42808]); (42811, [42810]); (42813, [42812]); (42815, [42814]); (42817, [42816]);
    (42819, [42818]); (42821, [42820]); (42823, [42822]); (42825, [42824]); (42827, [42826]);
    (42829, [42828]); (42831, [42830]); (42833, [42832]); (42835, [42834]); (42837, [42836]);
    (42839, [42838]); (42841, [42840]); (42843, [42842]); (42845, [42844]); (42847, [42846]);
    (42849, [42848]); (42851, [42850]); (42853, [42852]); (42855, [42854]); (42857, [42856]);
    (42859, [42858]); (42861, [42860]); (42863, [42862]); (42874, [42873]); (42876, [42875]);
    (42879, [42878]); (42881, [42880]); (42883, [42882]); (42885, [42884]); (42887, [42886]);
    (42892, [42891]); (42897, [42896]); (42899, [42898]); (42900, [42948]); (42903, [42902]);
    (42905, [42904]); (42907, [42906]); (42909, [42908]); (42911, [42910]); (42913, [42912]);
    (42915, [42914]); (42917, [42916]); (42919, [42918]); (42921, [42920]); (42933, [42932]);
    (42935, [42934]); (42937, [42936]); (42939, [42938]); (42941, [42940]); (42943, [42942]);
    (42945, [42944]); (42947, [42946]); (42952, [42951]); (42954, [42953]); (42961, [42960]);
    (42967, [42966]); (42969, [42968]); (42998, [42997]); (43859, [42931]); (43888, [5024]);
    (43889, [5025]); (43890, [5026]); (43891, [5027]); (43892, [5028]); (43893, [5029]);
    (43894, [5030]); (43895, [5031]); (43896, [5032]); (43897, [5033]); (43898, [5034]);
    (43899, [5035]); (43900, [5036]); (43901, [5037]); (43902, [5038]); (43903, [5039]);
    (43904, [5040]); (43905, [5041]); (43906, [5042]); (43907, [5043]); (43908, [5044]);
    (43909, [5045]); (43910, [5046]); (43911, [5047]); (43912, [5048]); (43913, [5049]);
    (43914, [5050]); (43915, [5051]); (43916, [5052]); (43917, [5053]); (43918, [5054]);
    (43919, [5055]); (43920, [5056]); (43921, [5057]); (43922, [5058]); (43923, [5059]);
    (43924, [5060]); (43925, [5061]); (43926, [5062]); (43927, [5063]); (43928, [5064]);
    (43929, [5065]); (43930, [5066]); (43931, [5067]); (43932, [5068]); (43933, [5069]);
    (43934, [5070]); (43935, [5071]); (43936, [5072]); (43937, [5073]); (43938, [5074]);
    (43939, [5075]); (43940, [5076]); (43941, [5077]); (43942, [5078]); (43943, [5079]);
    (43944, [5080]); (43945, [5081]); (43946, [5082]); (43947, [5083]); (43948, [5084]);
    (43949, [5085]); (43950, [5086]); (43951, [5087]); (43952, [5088]); (43953, [5089]);
    (43954, [5090]); (43955, [5091]); (43956, [5092]); (43957, [5093]); (43958, [5094]);
    (43959, [5095]); (43960, [5096]); (43961, [5097]); (43962, [5098]); (43963, [5099]);
    (43964, [5100]); (43965, [5101]); (43966, [5102]); (43967, [5103]); (64256, [70; 70]);
    (64257, [70; 73]); (64258, [70; 76]); (64259, [70; 70; 73]); (64260, [70; 70; 76]);
    (64261, [83; 84]); (64262, [83; 84]); (64275, [1348; 1350]); (64276, [1348; 1333]);
    (64277, [1348; 1339]); (64278, [1358; 1350]); (64279, [1348; 1341]); (65345, [65313]);
    (65346, [65314]); (65347, [65315]); (65348, [65316]); (65349, [65317]); (65350, [65318]);
    (65351, [65319]); (65352, [65320]); (65353, [65321]); (65354, [65322]); (65355, [65323]);
    (65356, [65324]); (65357, [65325]); (65358, [65326]); (65359, [65327]); (65360, [65328]);
    (65361, [65329]); (65362, [65330]); (65363, [65331]); (65364, [65332]); (65365, [65333]);
    (65366, [65334]); (65367, [65335]); (65368, [65336]); (65369, [65337]); (65370, [65338]);
    (66600, [66560]); (66601, [66561]); (66602, [66562]); (66603, [66563]); (66604, [66564]);
    (66605, [66565]); (66606, [66566]); (66607, [66567]); (66608, [66568]); (66609, [66569]);
    (66610, [66570]); (66611, [66571]); (66612, [66572]); (66613, [66573]); (66614, [66574]);
    (66615, [66575]); (66616, [66576]); (66617, [66577]); (66618, [66578]); (66619, [66579]);
    (66620, [66580]); (66621, [66581]); (66622, [66582]); (66623, [66583]); (66624, [66584]);
    (66625, [66585]); (66626, [66586]); (66627, [66587]); (66628, [66588]); (66629, [66589]);
    (66630, [66590]); (66631, [66591]); (66632, [66592]); (66633, [66593]); (66634, [66594]);
    (66635, [66595]); (66636, [66596]); (66637, [66597]); (66638, [66598]); (66639, [66599]);
    (66776, [66736]); (66777, [66737]); (66778, [66738]); (66779, [66739]); (66780, [66740]);
    (66781, [66741]); (66782, [66742]); (66783, [66743]); (66784, [66744]); (66785, [66745]);
    (66786, [66746]); (66787, [66747]); (66788, [66748]); (66789, [66749]); (66790, [66750]);
    (66791, [66751]); (66792, [66752]); (66793, [66753]); (66794, [66754]); (66795, [66755]);
    (66796, [66756]); (66797, [66757]); (66798, [66758]); (66799, [66759]); (66800, [66760]);
    (66801, [66761]); (66802, [66762]); (66803, [66763]); (66804, [66764]); (66805, [66765]);
    (66806, [66766]); (66807, [66767]); (66808, [66768]); (66809, [66769]); (66810, [66770]);
    (66811, [66771]); (66967, [66928]); (66968, [66929]); (66969, [66930]); (66970, [66931]);
    (66971, [66932]); (66972, [66933]); (66973, [66934]); (66974, [66935]); (66975, [66936]);
    (66976, [66937]); (66977, [66938]); (66979, [66940]); (66980, [66941]); (66981, [66942]);
    (66982, [66943]); (66983, [66944]); (66984, [66945]); (66985, [66946]); (66986, [66947]);
    (66987, [66948]); (66988, [66949]); (66989, [66950]); (66990, [66951]); (66991, [66952]);
    (66992, [66953]); (66993, [66954]); (66995, [66956]); (66996, [66957]); (66997, [66958]);
    (66998, [66959]); (66999, [66960]); (67000, [66961]); (67001, [66962]); (67003, [66964]);
    (67004, [66965]); (68800, [68736]); (68801, [68737]); (68802, [68738]); (68803, [68739]);
    (68804, [68740]); (68805, [68741]); (68806, [68742]); (68807, [68743]); (68808, [68744]);
    (68809, [68745]); (68810, [68746]); (68811, [68747]); (68812, [68748]); (68813, [68749]);
    (68814, [68750]); (68815, [68751]); (68816, [68752]); (68817, [68753]); (68818, [68754]);
    (68819, [68755]); (68820, [68756]); (68821, [68757]); (68822, [68758]); (68823, [68759]);
    (68824, [68760]); (68825, [68761]); (68826, [68762]); (68827, [68763]); (68828, [68764]);
    (68829, [68765]); (68830, [68766]); (68831, [68767]); (68832, [68768]); (68833, [68769]);
    (68834, [68770]); (68835, [68771]); (68836, [68772]); (68837, [68773]); (68838, [68774]);
    (68839, [68775]); (68840, [68776]); (68841, [68777]); (68842, [68778]); (68843, [68779]);
    (68844, [68780]); (68845, [68781]); (68846, [68782]); (68847, [68783]); (68848, [68784]);
    (68849, [68785]); (68850, [68786]); (71872, [71840]); (71873, [71841]); (71874, [71842]);
    (71875, [71843]); (71876, [71844]); (71877, [71845]); (71878, [71846]); (71879, [71847]);
    (71880, [71848]); (71881, [71849]); (71882, [71850]); (71883, [71851]); (71884, [71852]);
    (71885, [71853]); (71886, [71854]); (71887, [71855]); (71888, [71856]); (71889, [71857]);
    (71890, [71858]); (71891, [71859]); (71892, [71860]); (71893, [71861]); (71894, [71862]);
    (71895, [71863]); (71896, [71864]); (71897, [71865]); (71898, [71866]); (71899, [71867]);
    (71900, [71868]); (71901, [71869]); (71902, [71870]); (71903, [71871]); (93792, [93760]);
    (93793, [93761]); (93794, [93762]); (93795, [93763]); (93796, [93764]); (93797, [93765]);
    (93798, [93766]); (93799, [93767]); (93800, [93768]); (93801, [93769]); (93802, [93770]);
    (93803, [93771]); (93804, [93772]); (93805, [93773]); (93806, [93774]); (93807, [93775]);
    (93808, [93776]); (93809, [93777]); (93810, [93778]); (93811, [93779]); (93812, [93780]);
    (93813, [93781]); (93814, [93782]); (93815, [93783]); (93816, [93784]); (93817, [93785]);
    (93818, [93786]); (93819, [93787]); (93820, [93788]); (93821, [93789]); (93822, [93790]);
    (93823, [93791]); (125218, [125184]); (125219, [125185]); (125220, [125186]);
    (125221, [125187]); (125222, [125188]); (125223, [125189]); (125224, [125190]);
    (125225, [125191]); (125226, [125192]); (125227, [125193]); (125228, [125194]);
    (125229, [125195]); (125230, [125196]); (125231, [125197]); (125232, [125198]);
    (125233, [125199]); (125234, [125200]); (125235, [125201]); (125236, [125202]);
    (125237, [125203]); (125238, [125204]); (125239, [125205]); (125240, [125206]);
    (125241, [125207]); (125242, [125208]); (125243, [125209]); (125244, [125210]);
    (125245, [125211]); (125246, [125212]); (125247, [125213]); (125248, [125214]);
    (125249, [125215]); (125250, [125216]); (125251, [125217])
  ].

Fixpoint assoc (cp : Z) (table : list (Z * list Z)) : option (list Z) :=
  match table with
  | [] => None
  | (k, out) :: rest => if k =? cp then Some out else assoc cp rest
  end.

(** What [str.upper] writes for the code point [cp], read from the bytes
    [original]. *)
Definition mapped (cp : Z) (original : list ascii) : list ascii :=
  match assoc cp unicode_upper with
  | Some out => concat (encode <$> out)
  | None => original
  end.

(** [s.upper()] on the characters of the UTF-8 text: an ASCII character
    by [upper_char], a longer sequence by the Unicode mapping of its code
    point. A byte that starts no well-formed sequence (there is none in the
    UTF-8 of a [str]) is left as it is. *)
Fixpoint upper_chars (l : list ascii) : list ascii :=
  match l with
  | [] => []
  | c0 :: l0 =>
      if code c0 <? 0x80 then upper_char c0 :: upper_chars l0
      else
        match l0 with
        | [] => c0 :: upper_chars l0
        | c1 :: l1 =>
            match decode2 (code c0) (code c1) with
            | Some cp => mapped cp [c0; c1] ++ upper_chars l1
            | None =>
                match l1 with
                | [] => c0 :: upper_chars l0
                | c2 :: l2 =>
                    match decode3 (code c0) (code c1) (code c2) with
                    | Some cp => mapped cp [c0; c1; c2] ++ upper_chars l2
                    | None =>
                        match l2 with
                        | [] => c0 :: upper_chars l0
                        | c3 :: l3 =>
                            match decode4 (code c0) (code c1) (code c2) (code c3) with
                            | Some cp => mapped cp [c0; c1; c2; c3] ++ upper_chars l3
                            | None => c0 :: upper_chars l0
                            end
                        end
                    end
                end
            end
        end
  end.

(** [s.upper()] *)
Definition upper (s : string) : string :=
  string_of_list_ascii (upper_chars (list_ascii_of_string s)).

(** [o.upper()]: only a [str] has the method. *)
Definition call_upper (o : value) : result string :=
  match o with
  | VStr s => Ok (upper s)
  | _ => Raise AttributeError
  end.

(** [for x in o]: the items the loop visits. A [dict] yields its keys (in
    insertion order in Python, which a [gmap] does not keep). *)
Definition iterate (o : value) : result (list value) :=
  match o with
  | VList items => Ok items
  | VStr s => Ok ((fun c => VStr (String c EmptyString)) <$> list_ascii_of_string s)
  | VDict entries => Ok ((fun kv => VStr kv.1) <$> map_to_list entries)
  | _ => Raise TypeError
  end.

(** [a is b] on two [int]s under CPython: one object per integer of
    [-5 .. 256] is shared; any other [int] made at run time is an object of
    its own, never the one a literal denotes. *)
Definition int_is (a b : Z) : bool :=
  (a =? b) && (-5 <=? b) && (b <=? 256).

(** [random.randrange(start, stop)]: [start] plus a draw below the width
    of the range; [draw] is what the generator yields. *)
Definition randrange (draw : Z) (start stop : Z) : result Z :=
  if start <? stop then Ok (start + draw mod (stop - start))
  else Raise ValueError.

(** [math.floor] on an [int] *)
Definition floor (n : Z) : Z := n.

(* ===================================================================== *)
(** * The client *)
(* ===================================================================== *)

Inductive AuthenticationMethods : Type :=
| MD5
| SHA512.

(** What a caller may pass as [authentication_method]: a member of the
    enumeration, or any other object. *)
Inductive method_object : Type :=
| Member (m : AuthenticationMethods)
| Other (o : value).

(** The namedtuple [Device]. *)
Record Device : Type := {
  mac_address : string;
  ip_address : value;
  ipv4_addresses : value;
  ipv6_addresses : value;
  name : value;
  address_source : value;
  interface : value;
  active : value;
  user_friendly_name : value;
  detected_device_type : value;
  user_device_type : value
}.

(** The attributes of a [Sagemcom_Client]. [_auth_key] does not exist
    until [__generate_auth_key] has run. *)
Record Sagemcom_Client : Type := {
  host : string;
  username : string;
  authentication_method : method_object;
  _password_hash : string;
  _current_nonce : option Z;
  _server_nonce : value;
  _session_id : value;
  _request_id : Z;
  _auth_key : option string
}.

Definition set_current_nonce (v : option Z) (c : Sagemcom_Client) : Sagemcom_Client :=
  {| host := host c; username := username c;
     authentication_method := authentication_method c;
     _password_hash := _password_hash c; _current_nonce := v;
     _server_nonce := _server_nonce c; _session_id := _session_id c;
     _request_id := _request_id c; _auth_key := _auth_key c |}.

Definition set_server_nonce (v : value) (c : Sagemcom_Client) : Sagemcom_Client :=
  {| host := host c; username := username c;
     authentication_method := authentication_method c;
     _password_hash := _password_hash c; _current_nonce := _current_nonce c;
     _server_nonce := v; _session_id := _session_id c;
     _request_id := _request_id c; _auth_key := _auth_key c |}.

Definition set_session_id (v : value) (c : Sagemcom_Client) : Sagemcom_Client :=
  {| host := host c; username := username c;
     authentication_method := authentication_method c;
     _password_hash := _password_hash c; _current_nonce := _current_nonce c;
     _server_nonce := _server_nonce c; _session_id := v;
     _request_id := _request_id c; _auth_key := _auth_key c |}.

Definition set_request_id (v : Z) (c : Sagemcom_Client) : Sagemcom_Client :=
  {| host := host c; username := username c;
     authentication_method := authentication_method c;
     _password_hash := _password_hash c; _current_nonce := _current_nonce c;
     _server_nonce := _server_nonce c; _session_id := _session_id c;
     _request_id := v; _auth_key := _auth_key c |}.

Definition set_auth_key (v : option string) (c : Sagemcom_Client) : Sagemcom_Client :=
  {| host := host c; username := username c;
     authentication_method := authentication_method c;
     _password_hash := _password_hash c; _current_nonce := _current_nonce c;
     _server_nonce := _server_nonce c; _session_id := _session_id c;
     _request_id := _request_id c; _auth_key := v |}.

(** The inner dictionary of [payload], with the address it is posted to. *)
Record request : Type := {
  rq_url : string;
  rq_id : Z;
  rq_session_id : string;
  rq_priority : bool;
  rq_actions : value;
  rq_cnonce : option Z;
  rq_auth_key : string
}.

(** What the server answers: the status line, the body as text, and the
    body as [response.json()] decodes it ([None] when it cannot). *)
Record http_response : Type := {
  status : Z;
  text : string;
  json : option value
}.

Inductive exchange : Type :=
| NoResponse
| Response (r : http_response).

(** What one request takes from outside the client: the random
    generator's draw and the outcome of the HTTP exchange. *)
Record io : Type := {
  draw : Z;
  http : exchange
}.

(** The state a method runs in. *)
Record world : Type := {
  self : Sagemcom_Client;
  stdout : list string;
  wire : list request
}.

Definition M (A : Type) : Type := world -> result A * world.

Definition ret {A} (a : A) : M A := fun w => (Ok a, w).

Definition raise {A} (e : exn) : M A := fun w => (Raise e, w).

Definition bind {A B} (m : M A) (k : A -> M B) : M B :=
  fun w =>
    match m w with
    | (Ok a, w') => k a w'
    | (Raise e, w') => (Raise e, w')
    end.

Notation "x <- m ;; k" := (bind m (fun x => k))
  (at level 100, m at next level, right associativity, only parsing).
Notation "m ;;; k" := (bind m (fun _ => k))
  (at level 100, right associativity, only parsing).

Definition lift {A} (r : result A) : M A := fun w => (r, w).

Definition get_self : M Sagemcom_Client := fun w => (Ok (self w), w).

Definition update_self (f : Sagemcom_Client -> Sagemcom_Client) : M unit :=
  fun w => (Ok tt, {| self := f (self w); stdout := stdout w; wire := wire w |}).

(** [print(s)] *)
Definition print (s : string) : M unit :=
  fun w => (Ok tt, {| self := self w; stdout := stdout w ++ [s]; wire := wire w |}).

(** [session.post(...)]: the request leaves, the exchange's outcome comes
    back. *)
Definition post (rq : request) (x : exchange) : M http_response :=
  fun w =>
    let w' := {| self := self w; stdout := stdout w; wire := wire w ++ [rq] |} in
    match x with
    | NoResponse => (Raise ClientError, w')
    | Response r => (Ok r, w')
    end.

(** [__init__] hashes the password with [__generate_hash] before the other
    attributes exist: the method reads nothing of [self] but
    [authentication_method]. *)
Definition __generate_hash (authentication_method : method_object) (value : string) : string :=
  let bytes_object := utf8 value in
  match authentication_method with
  | Member MD5 => hashlib.md5 bytes_object
  | Member SHA512 => hashlib.sha512 bytes_object
  | Other _ => value
  end.

Definition __init__ (host username password : string)
  (authentication_method : method_object) : Sagemcom_Client :=
  {| host := host;
     username := username;
     authentication_method := authentication_method;
     _password_hash := __generate_hash authentication_method password;
     _current_nonce := None;
     _server_nonce := VStr "";
     _session_id := VInt 0;
     _request_id := -1;
     _auth_key := None |}.

Definition __generate_nonce (draw : Z) : M unit :=
  n <- lift (randrange draw 0 1) ;;
  update_self (set_current_nonce (Some (floor (n * 500000)))).

Definition __generate_request_id : M unit :=
  update_self (fun c => set_request_id (_request_id c + 1) c).

(** [a + b] where [a] is a [str]: [b] has to be one too. *)
Definition str_add (a : string) (b : value) : result string :=
  match b with
  | VStr s => Ok (a +:+ s)
  | _ => Raise TypeError
  end.

Definition __get_credential_hash (c : Sagemcom_Client) : result string :=
  s <-? str_add (username c +:+ ":") (_server_nonce c) ;;
  Ok (__generate_hash (authentication_method c) (s +:+ ":" +:+ _password_hash c)).

(** [str(self._current_nonce)] *)
Definition str_nonce (n : option Z) : string :=
  match n with
  | Some z => str_int z
  | None => "None"
  end.

Definition __generate_auth_key : M unit :=
  c <- get_self ;;
  credential_hash <- lift (__get_credential_hash c) ;;
  let auth_string :=
    credential_hash +:+ ":" +:+ str_int (_request_id c)
      +:+ ":" +:+ str_nonce (_current_nonce c) +:+ ":JSON:/cgi/json-req" in
  update_self (set_auth_key (Some (__generate_hash (authentication_method c) auth_string))).

(** [try: value = e / except KeyError: value = None] *)
Definition except_KeyError (e : result value) : result value :=
  match e with
  | Raise KeyError => Ok VNone
  | _ => e
  end.

Definition __get_response_error (response : value) : result value :=
  except_KeyError (
    reply <-? response.["reply"] ;;
    reply.["error"]).

Definition __get_response_value (response : value) (index : Z) : result value :=
  except_KeyError (
    reply <-? response.["reply"] ;;
    actions <-? reply.["actions"] ;;
    action <-? actions.[#index] ;;
    callbacks <-? action.["callbacks"] ;;
    callback <-? callbacks.[#index] ;;
    callback.["parameters"]).

Definition make_device (device : value) : result Device :=
  phys <-? device.["PhysAddress"] ;;
  mac <-? call_upper phys ;;
  ip <-? device.["IPAddress"] ;;
  ipv4 <-? device.["IPv4Addresses"] ;;
  ipv6 <-? device.["IPv6Addresses"] ;;
  source <-? device.["AddressSource"] ;;
  user_host_name <-? device.["UserHostName"] ;;
  nm <-? or_else user_host_name (device.["HostName"]) ;;
  interface_type <-? device.["InterfaceType"] ;;
  act <-? device.["Active"] ;;
  friendly <-? device.["UserFriendlyName"] ;;
  detected <-? device.["DetectedDeviceType"] ;;
  user_type <-? device.["UserDeviceType"] ;;
  Ok {| mac_address := mac;
        ip_address := ip;
        ipv4_addresses := ipv4;
        ipv6_addresses := ipv6;
        name := nm;
        address_source := source;
        interface := interface_type;
        active := act;
        user_friendly_name := friendly;
        detected_device_type := detected;
        user_device_type := user_type |}.

(** [not only_active or device['Active']] *)
Definition wanted (only_active : bool) (device : value) : result bool :=
  if negb only_active then Ok true
  else (a <-? device.["Active"] ;; Ok (truthy a)).

(** The loop of [parse_devices] over the items still to visit, [devices]
    being the list built so far. *)
Fixpoint parse_loop (only_active : bool) (items : list value) (devices : list Device)
  : result (list Device) :=
  match items with
  | [] => Ok devices
  | device :: rest =>
      go <-? wanted only_active device ;;
      if (go : bool) then
        d <-? make_device device ;;
        parse_loop only_active rest (devices ++ [d])
      else parse_loop only_active rest devices
  end.

Definition parse_devices (data : value) (only_active : bool) : result (list Device) :=
  items <-? iterate data ;;
  parse_loop only_active items [].

Section Requests.

(** [repr(o)] of a [float], a [list] or a [dict], as CPython prints it. *)
Variable repr : value -> string.

(** [str(o)] *)
Definition str (o : value) : string :=
  match o with
  | VNone => "None"
  | VBool true => "True"
  | VBool false => "False"
  | VInt n => str_int n
  | VStr s => s
  | _ => repr o
  end.

Definition __api_request_async (actions : value) (priority : bool) (env : io) : M value :=
  __generate_request_id ;;;
  __generate_nonce (draw env) ;;;
  __generate_auth_key ;;;
  c <- get_self ;;
  let api_host := "http://" +:+ host c +:+ "/cgi/json-req" in
  auth_key <- lift (match _auth_key c with
                    | Some k => Ok k
                    | None => Raise AttributeError
                    end) ;;
  let payload :=
    {| rq_url := api_host;
       rq_id := _request_id c;
       rq_session_id := str (_session_id c);
       rq_priority := priority;
       rq_actions := actions;
       rq_cnonce := _current_nonce c;
       rq_auth_key := auth_key |} in
  response <- post payload (http env) ;;
  result <- (if int_is (status response) 400
             then print (text response) ;;; ret (Some (VStr (text response)))
             else ret None) ;;
  result <- (if negb (int_is (status response) 200)
             then print (text response) ;;; ret (Some (VStr (text response)))
             else ret result) ;;
  result <- (if int_is (status response) 200
             then
               body <- lift (match json response with
                             | Some v => Ok v
                             | None => Raise JSONDecodeError
                             end) ;;
               error <- lift (__get_response_error body) ;;
               description <- lift (error.["description"]) ;;
               (if ne_str description "XMO_REQUEST_NO_ERR"
                then print (str error)
                else ret tt) ;;;
               ret (Some body)
             else ret result) ;;
  lift (match result with
        | Some v => Ok v
        | None => Raise UnboundLocalError
        end).

Definition login_actions (c : Sagemcom_Client) : value :=
  VDict {[
    "method" := VStr "logIn";
    "parameters" := VDict {[
      "user" := VStr (username c);
      "persistent" := VStr "true";
      "session-options" := VDict {[
        "nss" := VList [ VDict {[
          "name" := VStr "gtw";
          "uri" := VStr "http://sagemcom.com/gateway-data" ]} ];
        "language" := VStr "ident";
        "context-flags" := VDict {[
          "get-content-name" := VBool true;
          "local-time" := VBool true ]};
        "capability-depth" := VInt 2;
        "capability-flags" := VDict {[
          "name" := VBool true;
          "default-value" := VBool false;
          "restriction" := VBool true;
          "description" := VBool false ]};
        "time-format" := VStr "ISO_8601";
        "write-only-string" := VStr "_XMO_WRITE_ONLY_";
        "undefined-write-only-string" := VStr "_XMO_UNDEFINED_WRITE_ONLY_" ]} ]} ]}.

Definition login (env : io) : M bool :=
  c <- get_self ;;
  response <- __api_request_async (VList [login_actions c]) true env ;;
  data <- lift (__get_response_value response 0) ;;
  id <- lift (data.["id"]) ;;
  if is_not_None id then
    nonce <- lift (data.["nonce"]) ;;
    if is_not_None nonce then
      update_self (set_session_id id) ;;;
      update_self (set_server_nonce nonce) ;;;
      ret true
    else ret false
  else ret false.

Definition get_device_info (env : io) : M value :=
  let actions := VDict {[
    "id" := VInt 0;
    "method" := VStr "getValue";
    "xpath" := VStr "Device/DeviceInfo" ]} in
  response <- __api_request_async (VList [actions]) false env ;;
  lift (__get_response_value response 0).

Definition get_port_mappings (env : io) : M value :=
  let actions := VDict {[
    "id" := VInt 0;
    "method" := VStr "getValue";
    "xpath" := VStr "Device/NAT/PortMappings" ]} in
  response <- __api_request_async (VList [actions]) false env ;;
  lift (__get_response_value response 0).

Definition get_hosts (env : io) : M value :=
  let actions := VDict {[
    "id" := VInt 0;
    "method" := VStr "getValue";
    "xpath" := VStr "Device/Hosts/Hosts";
    "options" := VDict {[
      "capability-flags" := VDict {[ "interface" := VBool true ]} ]} ]} in
  response <- __api_request_async (VList [actions]) false env ;;
  lift (__get_response_value response 0).

Definition reboot (env : io) : M value :=
  let actions := VDict {[
    "method" := VStr "reboot";
    "xpath" := VStr "Device";
    "parameters" := VDict {[ "source" := VStr "GUI" ]} ]} in
  response <- __api_request_async (VList [actions]) false env ;;
  lift (__get_response_value response 0).

(** The public operations that go through [__api_request_async]. *)
Inductive operation : Type :=
| Login
| GetDeviceInfo
| GetPortMappings
| GetHosts
| Reboot.

(** One call of an operation; what it returns is kept as a [value]. *)
Definition perform (op : operation) (env : io) : M value :=
  match op with
  | Login => b <- login env ;; ret (VBool b)
  | GetDeviceInfo => get_device_info env
  | GetPortMappings => get_port_mappings env
  | GetHosts => get_hosts env
  | Reboot => reboot env
  end.

(** A caller making the calls one after the other, whatever each returns
    or raises. *)
Fixpoint run (calls : list (operation * io)) (w : world) : world :=
  match calls with
  | [] => w
  | (op, env) :: rest => run rest (perform op env w).2
  end.

End Requests.

(** A client as its constructor leaves it, nothing printed or sent yet. *)
Definition fresh (c : Sagemcom_Client) : world :=
  {| self := c; stdout := []; wire := [] |}.

(** The digest the configuration names, as the protocol describes it:
    the hex digest of the text's UTF-8 bytes. *)
Definition digest (m : AuthenticationMethods) (s : string) : string :=
  match m with
  | MD5 => hashlib.md5 (utf8 s)
  | SHA512 => hashlib.sha512 (utf8 s)
  end.

(** Bytes in a digest of each algorithm. *)
Definition digest_size (m : AuthenticationMethods) : nat :=
  match m with
  | MD5 => 16%nat
  | SHA512 => 64%nat
  end.

(** Two clients that agree on everything the protocol feeds into the
    authentication key. *)
Definition same_inputs (c1 c2 : Sagemcom_Client) : Prop :=
  username c1 = username c2
  /\ authentication_method c1 = authentication_method c2
  /\ _password_hash c1 = _password_hash c2
  /\ _server_nonce c1 = _server_nonce c2
  /\ _current_nonce c1 = _current_nonce c2
  /\ _request_id c1 = _request_id c2.

(** A client of the examples: the router at 192.168.1.1, after a login
    that set the session to 5 and the server nonce to [abc], about to send
    request 1 with nonce 0. *)
Definition admin_client (m : method_object) (host : string) (session : Z) : Sagemcom_Client :=
  set_current_nonce (Some 0)
    (set_request_id 1
      (set_server_nonce (VStr "abc")
        (set_session_id (VInt session) (__init__ host "admin" "secret" m)))).

(** The client once [__generate_request_id] and [__generate_nonce] have
    run. *)
Definition stepped (c : Sagemcom_Client) : Sagemcom_Client :=
  set_current_nonce (Some 0) (set_request_id (_request_id c + 1) c).

(** The key [__generate_auth_key] stores for a client whose server nonce
    is the text [sn]. *)
Definition key_of (c : Sagemcom_Client) (sn : string) : string :=
  __generate_hash (authentication_method c)
    (__generate_hash (authentication_method c)
       (username c +:+ ":" +:+ sn +:+ ":" +:+ _password_hash c)
     +:+ ":" +:+ str_int (_request_id c) +:+ ":" +:+ str_nonce (_current_nonce c)
     +:+ ":JSON:/cgi/json-req").

(** What [__api_request_async] hands back once the request has left, read
    off the exchange. *)
Definition outcome (x : exchange) : result value :=
  match x with
  | NoResponse => Raise ClientError
  | Response r =>
      if status r =? 200 then
        match json r with
        | None => Raise JSONDecodeError
        | Some body =>
            error <-? __get_response_error body ;;
            _ <-? error.["description"] ;;
            Ok body
        end
      else Ok (VStr (text r))
  end.


(** What holds of a client's state after [n] calls through the request
    path: the stored counter, the requests sent so far, and whether any
    call was stopped before sending. *)
Definition counter_invariant (n : nat) (w : world) : Prop :=
  _request_id (self w) = Z.of_nat n - 1
  /\ (forall i rq, wire w !! i = Some rq -> rq_id rq = Z.of_nat i /\ rq_cnonce rq = Some 0)
  /\ ((exists sn, _server_nonce (self w) = VStr sn) -> length (wire w) = n)
  /\ (n = 0%nat -> exists sn, _server_nonce (self w) = VStr sn)
  /\ ((0 < n)%nat -> (0 < length (wire w))%nat).

(** A well-formed reply: status 200, the success sentinel, and
    [parameters] behind the first callback of the first action. *)
Definition reply_with (parameters : value) : http_response :=
  {| status := 200;
     text := "";
     json := Some (VDict {[
       "reply" := VDict {[
         "error" := VDict {[ "description" := VStr "XMO_REQUEST_NO_ERR" ]};
         "actions" := VList [ VDict {[
           "callbacks" := VList [ VDict {[ "parameters" := parameters ]} ] ]} ] ]} ]}) |}.

(** A client just constructed, as the examples use it. *)
Definition new_client : world :=
  fresh (__init__ "192.168.1.1" "admin" "secret" (Member MD5)).

(** Status 200 with an application-level error and no actions. *)
Definition protocol_error_reply : http_response :=
  {| status := 200;
     text := "";
     json := Some (VDict {[
       "reply" := VDict {[
         "error" := VDict {[ "description" := VStr "XMO_AUTHENTICATION_ERR" ]} ]} ]}) |}.

(** Status 401 with a plain-text body. *)
Definition unauthorized_reply : http_response :=
  {| status := 401; text := "Unauthorized"; json := None |}.

(** Status 200 with the empty object for body. *)
Definition empty_reply : http_response :=
  {| status := 200; text := "{}"; json := Some (VDict ∅) |}.

(** Status 200, the success sentinel, and no actions. *)
Definition no_actions_reply : http_response :=
  {| status := 200;
     text := "";
     json := Some (VDict {[
       "reply" := VDict {[
         "error" := VDict {[ "description" := VStr "XMO_REQUEST_NO_ERR" ]} ]} ]}) |}.

Definition answered (r : http_response) : io := {| draw := 0; http := Response r |}.

(** [dev] is the record [parse_devices] builds from the raw host [d]. *)
Definition normalizes_to (d : value) (dev : Device) : Prop := make_device d = Ok dev.

(** The active flag of a raw host, as the filter reads it. *)
Definition active_flag (d : value) : bool :=
  match d.["Active"] with
  | Ok a => truthy a
  | Raise _ => false
  end.

Definition is_lower_char (c : ascii) : bool :=
  let n := N_of_ascii c in ((97 <=? n) && (n <=? 122))%N.

(** No letter of [a-z] occurs in [s]. *)
Definition no_lower (s : string) : Prop :=
  forallb (fun c => negb (is_lower_char c)) (list_ascii_of_string s) = true.

(** A raw host as [get_hosts] returns them. *)
Definition raw_host (is_active : bool) (phys user_host_name host_name : string) : value :=
  VDict {[
    "Active" := VBool is_active;
    "PhysAddress" := VStr phys;
    "IPAddress" := VStr "192.168.1.20";
    "IPv4Addresses" := VList [];
    "IPv6Addresses" := VList [];
    "AddressSource" := VStr "DHCP";
    "UserHostName" := VStr user_host_name;
    "HostName" := VStr host_name;
    "InterfaceType" := VStr "WiFi";
    "UserFriendlyName" := VStr "";
    "DetectedDeviceType" := VStr "";
    "UserDeviceType" := VStr "" ]}.

(** The record expected for [raw_host]. *)
Definition host_device (is_active : bool) (mac : string) (nm : string) : Device :=
  {| mac_address := mac;
     ip_address := VStr "192.168.1.20";
     ipv4_addresses := VList [];
     ipv6_addresses := VList [];
     name := VStr nm;
     address_source := VStr "DHCP";
     interface := VStr "WiFi";
     active := VBool is_active;
     user_friendly_name := VStr "";
     detected_device_type := VStr "";
     user_device_type := VStr "" |}.

Definition laptop : value := raw_host false "aa:bb:cc:dd:ee:ff" "" "laptop".

Definition phone : value := raw_host true "11:22:33:Aa:bB:cc" "My phone" "android-1234".

(** What [__api_request_async] prints once the request has left, read
    off the exchange; [repr] prints a compound value. *)
Definition printed (repr : value -> string) (x : exchange) : list string :=
  match x with
  | NoResponse => []
  | Response r =>
      if status r =? 200 then
        match json r with
        | None => []
        | Some body =>
            match __get_response_error body with
            | Ok error =>
                match error.["description"] with
                | Ok d => if ne_str d "XMO_REQUEST_NO_ERR" then [str repr error] else []
                | Raise _ => []
                end
            | Raise _ => []
            end
        end
      else [text r]
  end.

(** The method name each operation puts in its action. *)
Definition op_method (op : operation) : string :=
  match op with
  | Login => "logIn"
  | Reboot => "reboot"
  | _ => "getValue"
  end.

(** The xpath each operation puts in its action; [login] has none. *)
Definition op_xpath (op : operation) : option string :=
  match op with
  | Login => None
  | GetDeviceInfo => Some "Device/DeviceInfo"
  | GetPortMappings => Some "Device/NAT/PortMappings"
  | GetHosts => Some "Device/Hosts/Hosts"
  | Reboot => Some "Device"
  end.

(** The keys [make_device] reads whatever the host holds. *)
Definition required_keys : list string :=
  [ "PhysAddress"; "IPAddress"; "IPv4Addresses"; "IPv6Addresses"; "AddressSource";
    "UserHostName"; "InterfaceType"; "Active"; "UserFriendlyName";
    "DetectedDeviceType"; "UserDeviceType" ].

(** A raw host [make_device] accepts: a [dict] with the required keys, a
    text for [PhysAddress], and a [HostName] unless [UserHostName] is
    truthy. *)
Definition well_formed_host (d : value) : Prop :=
  exists m,
    d = VDict m
    /\ Forall (fun k => is_Some (m !! k)) required_keys
    /\ (exists phys, m !! "PhysAddress" = Some (VStr phys))
    /\ (forall u, m !! "UserHostName" = Some u -> truthy u = false ->
          is_Some (m !! "HostName")).

(** A client whose login was answered with a number for nonce. *)
Definition numeric_nonce_client (repr : value -> string) : world :=
  (login repr (answered (reply_with (VDict {[ "id" := VInt 5; "nonce" := VInt 7 ]})))
     new_client).2.

(** The decoded body of a response, [None] when there is none. *)
Definition reply_body (r : http_response) : value :=
  match json r with
  | Some body => body
  | None => VNone
  end.

(** The entries of a [dict], nothing for any other value. *)
Definition fields (d : value) : gmap string value :=
  match d with
  | VDict m => m
  | _ => ∅
  end.

(** A [repr] for the examples: every compound value prints alike. *)
Definition plain_repr (o : value) : string := "<object>".







(* ===================================================================== *)
(** * Facts about the digests *)
(* ===================================================================== *)

Lemma md5_empty : hashlib.md5 (utf8 "") = "d41d8cd98f00b204e9800998ecf8427e".
Proof. vm_compute. reflexivity. Qed.

Lemma md5_abc : hashlib.md5 (utf8 "abc") = "900150983cd24fb0d6963f7d28e17f72".
Proof. vm_compute. reflexivity. Qed.

Lemma md5_fox :
  hashlib.md5 (utf8 "The quick brown fox jumps over the lazy dog")
  = "9e107d9d372bb6826bd81d3542a419d6".
Proof. vm_compute. reflexivity. Qed.

(** 56 bytes: the padding spills into a second block. *)
Lemma md5_two_blocks :
  hashlib.md5 (replicate 56 97) = "3b0c8ac703f828b04c6c197006d17218".
Proof. vm_compute. reflexivity. Qed.

Lemma sha512_empty :
  hashlib.sha512 (utf8 "")
  = "cf83e1357eefb8bdf1542850d66d8007d620e4050b5715dc83f4a921d36ce9ce47d0d13c5d85f2b0ff8318d2877eec2f63b931bd47417a81a538327af927da3e".
Proof. vm_compute. reflexivity. Qed.

Lemma sha512_abc :
  hashlib.sha512 (utf8 "abc")
  = "ddaf35a193617abacc417349ae20413112e6fa4e89a97ea20a9eeee64b55d39a2192992a274fc1a836ba3c23a3feebbd454d4423643ce80e2a9ac94fa54ca49f".
Proof. vm_compute. reflexivity. Qed.

(** 112 bytes: the padding spills into a second block. *)
Lemma sha512_two_blocks :
  hashlib.sha512 (replicate 112 97)
  = "c01d080efd492776a1c43bd23dd99d0a2e626d481e16782e75d54c2503b5dc32bd05f0f1ba33e568b88fd2d970929b719ecbb152f58f130a407c8830604b70ca".
Proof. vm_compute. reflexivity. Qed.

Section Hex.

Lemma hex_digit_is_hex (n : Z) : is_hex_char (hex_digit n) = true.
Proof.
  unfold hex_digit.
  assert (Hlt : (Z.to_nat (n mod 16) < 16)%nat) by (pose proof (Z.mod_pos_bound n 16); lia).
  revert Hlt. generalize (Z.to_nat (n mod 16)). intros k Hk.
  do 16 (destruct k as [|k]; [reflexivity|]). lia.
Qed.

Lemma string_of_list_ascii_length (l : list ascii) :
  String.length (string_of_list_ascii l) = length l.
Proof. induction l as [|a l IH]; simpl; congruence. Qed.

Lemma hex_bytes_length (bs : list Z) : length (concat (hex_byte <$> bs)) = (2 * length bs)%nat.
Proof.
  induction bs as [|b bs IH]; [reflexivity|].
  change (concat (hex_byte <$> b :: bs)) with (hex_byte b ++ concat (hex_byte <$> bs))%list.
  rewrite length_app, IH. simpl. lia.
Qed.

Lemma hex_bytes_all_hex (bs : list Z) :
  forallb is_hex_char (concat (hex_byte <$> bs)) = true.
Proof.
  induction bs as [|b bs IH]; [reflexivity|].
  change (concat (hex_byte <$> b :: bs)) with (hex_byte b ++ concat (hex_byte <$> bs))%list.
  rewrite forallb_app, IH. unfold hex_byte. simpl.
  now rewrite !hex_digit_is_hex.
Qed.

Lemma hexlify_hexdigest (bs : list Z) : is_hexdigest (length bs) (hexlify bs).
Proof.
  unfold is_hexdigest, hexlify. split.
  - rewrite string_of_list_ascii_length. apply hex_bytes_length.
  - rewrite list_ascii_of_string_of_list_ascii. apply hex_bytes_all_hex.
Qed.

Lemma bytes_le_length (n : nat) (x : Z) : length (bytes_le n x) = n.
Proof. revert x. induction n as [|n IH]; intros x; simpl; [reflexivity|]. now rewrite IH. Qed.

Lemma bytes_be_length (n : nat) (x : Z) : length (bytes_be n x) = n.
Proof. unfold bytes_be. rewrite length_rev. apply bytes_le_length. Qed.

End Hex.

Lemma md5_digest_length (msg : list Z) : length (hashlib.md5_digest msg) = 16%nat.
Proof.
  unfold hashlib.md5_digest.
  destruct (fold_left _ _ _) as [[[a b] c] d].
  rewrite !length_app, !bytes_le_length. reflexivity.
Qed.

Lemma sha512_round_length (w v : list Z) (t : nat) :
  length (hashlib.sha512_round w v t) = length v.
Proof.
  unfold hashlib.sha512_round.
  repeat (destruct v as [|? v]; try reflexivity).
Qed.

Lemma sha512_rounds_length (w : list Z) (ts : list nat) (v : list Z) :
  length (fold_left (hashlib.sha512_round w) ts v) = length v.
Proof.
  revert v. induction ts as [|t ts IH]; intros v; simpl; [reflexivity|].
  rewrite IH. apply sha512_round_length.
Qed.

Lemma sha512_block_length (hs block : list Z) :
  length (hashlib.sha512_block hs block) = length hs.
Proof.
  unfold hashlib.sha512_block.
  rewrite length_zip_with, sha512_rounds_length. lia.
Qed.

Lemma sha512_blocks_length (bl : list (list Z)) (hs : list Z) :
  length (fold_left hashlib.sha512_block bl hs) = length hs.
Proof.
  revert hs. induction bl as [|b bl IH]; intros hs; simpl; [reflexivity|].
  rewrite IH. apply sha512_block_length.
Qed.

Lemma concat_bytes_be_length (hs : list Z) :
  length (concat (bytes_be 8 <$> hs)) = (8 * length hs)%nat.
Proof.
  induction hs as [|h hs IH]; [reflexivity|].
  change (concat (bytes_be 8 <$> h :: hs)) with (bytes_be 8 h ++ concat (bytes_be 8 <$> hs))%list.
  rewrite length_app, bytes_be_length, IH. simpl. lia.
Qed.

Lemma sha512_digest_length (msg : list Z) : length (hashlib.sha512_digest msg) = 64%nat.
Proof.
  unfold hashlib.sha512_digest.
  rewrite concat_bytes_be_length, sha512_blocks_length. reflexivity.
Qed.

(** Whatever the text, the digest is a hex digest of the algorithm's
    size. *)
Lemma digest_is_hexdigest (m : AuthenticationMethods) (s : string) :
  is_hexdigest (digest_size m) (digest m s).
Proof.
  destruct m; simpl; unfold hashlib.md5, hashlib.sha512.
  - rewrite <- (md5_digest_length (utf8 s)). apply hexlify_hexdigest.
  - rewrite <- (sha512_digest_length (utf8 s)). apply hexlify_hexdigest.
Qed.

(* ===================================================================== *)
(** * The authentication key *)
(* ===================================================================== *)

Section AuthKey.

Lemma append_cons (a : ascii) (s t : string) : String a s +:+ t = String a (s +:+ t).
Proof. reflexivity. Qed.

Lemma append_assoc (s t u : string) : (s +:+ t) +:+ u = s +:+ (t +:+ u).
Proof.
  induction s as [|a s IH]; [reflexivity|].
  now rewrite !append_cons, IH.
Qed.

Lemma list_ascii_of_string_append (s t : string) :
  list_ascii_of_string (s +:+ t) = (list_ascii_of_string s ++ list_ascii_of_string t)%list.
Proof.
  induction s as [|a s IH]; [reflexivity|].
  rewrite append_cons. simpl. now rewrite IH.
Qed.

(** A text ending in the protocol's suffix is no hex digest: it holds a
    colon. *)
Lemma suffixed_not_hexdigest (n : nat) (s : string) :
  ~ is_hexdigest n (s +:+ ":JSON:/cgi/json-req").
Proof.
  intros [_ H]. rewrite list_ascii_of_string_append, forallb_app in H.
  apply andb_true_iff in H as [_ H]. discriminate H.
Qed.

Lemma get_credential_hash_str (c : Sagemcom_Client) (sn : string) :
  _server_nonce c = VStr sn ->
  __get_credential_hash c
  = Ok (__generate_hash (authentication_method c)
          (username c +:+ ":" +:+ sn +:+ ":" +:+ _password_hash c)).
Proof.
  intros H. unfold __get_credential_hash. rewrite H. simpl.
  now rewrite !append_assoc.
Qed.

Lemma get_credential_hash_not_str (c : Sagemcom_Client) :
  (forall sn, _server_nonce c <> VStr sn) ->
  __get_credential_hash c = Raise TypeError.
Proof.
  intros H. unfold __get_credential_hash.
  destruct (_server_nonce c) eqn:E; try reflexivity.
  now destruct (H s).
Qed.

(** What [__generate_auth_key] does to the state, in one equation. *)
Lemma generate_auth_key_run (w : world) :
  __generate_auth_key w
  = match __get_credential_hash (self w) with
    | Ok credential_hash =>
        (Ok tt,
         {| self :=
              set_auth_key
                (Some (__generate_hash (authentication_method (self w))
                         (credential_hash +:+ ":" +:+ str_int (_request_id (self w))
                            +:+ ":" +:+ str_nonce (_current_nonce (self w))
                            +:+ ":JSON:/cgi/json-req")))
                (self w);
            stdout := stdout w;
            wire := wire w |})
    | Raise e => (Raise e, w)
    end.
Proof.
  unfold __generate_auth_key, bind, get_self, lift, update_self.
  destruct (__get_credential_hash (self w)); reflexivity.
Qed.

(** C1. For MD5 and for SHA-512, whatever the user name, password hash,
    server nonce, client nonce and request ID the client holds,
    [__generate_auth_key] stores
    [digest(credential_hash + ":" + request_id + ":" + client_nonce + ":JSON:/cgi/json-req")]
    with
    [credential_hash = digest(username + ":" + server_nonce + ":" + password_hash)],
    and that key is a hex digest of the algorithm's size. *)
Theorem auth_key_derivation
  (m : AuthenticationMethods) (w : world) (server_nonce : string) (client_nonce : Z) :
  authentication_method (self w) = Member m ->
  _server_nonce (self w) = VStr server_nonce ->
  _current_nonce (self w) = Some client_nonce ->
  let c := self w in
  let credential_hash :=
    digest m (username c +:+ ":" +:+ server_nonce +:+ ":" +:+ _password_hash c) in
  let auth_string :=
    credential_hash +:+ ":" +:+ str_int (_request_id c) +:+ ":" +:+ str_int client_nonce
      +:+ ":JSON:/cgi/json-req" in
  __get_credential_hash c = Ok credential_hash
  /\ (exists w', __generate_auth_key w = (Ok tt, w')
                 /\ _auth_key (self w') = Some (digest m auth_string))
  /\ is_hexdigest (digest_size m) (digest m auth_string).
Proof.
  intros Hm Hs Hn c credential_hash auth_string.
  assert (Hc : __get_credential_hash c = Ok credential_hash).
  { subst c. rewrite (get_credential_hash_str _ _ Hs), Hm. now destruct m. }
  split; [exact Hc|]. split; [|apply digest_is_hexdigest].
  eexists. split.
  - rewrite generate_auth_key_run. fold c. rewrite Hc. reflexivity.
  - cbn [self _auth_key set_auth_key]. subst c. rewrite Hm, Hn.
    now destruct m.
Qed.

Lemma auth_key_derivation_witness :
  _auth_key (self (__generate_auth_key (fresh (admin_client (Member MD5) "192.168.1.1" 5))).2)
  = Some "a4f5dd4cfd19ad09cf1497e53e6c827a"
  /\ is_hexdigest 16 "a4f5dd4cfd19ad09cf1497e53e6c827a".
Proof.
  destruct (auth_key_derivation MD5 (fresh (admin_client (Member MD5) "192.168.1.1" 5))
              "abc" 0 eq_refl eq_refl eq_refl) as (_ & (w' & Hrun & Hkey) & _).
  rewrite Hrun. split.
  - etransitivity; [exact Hkey|]. vm_compute. reflexivity.
  - split; vm_compute; reflexivity.
Defined.

(** C9. The credential hash and the authentication key depend on nothing
    but the user name, the digest, the password hash, the server nonce, the
    client nonce and the request ID: two clients that agree on these get
    the same credential hash, the same outcome of [__generate_auth_key]
    and the same key, whatever else differs in their state. *)
Theorem auth_key_deterministic (w1 w2 : world) :
  same_inputs (self w1) (self w2) ->
  __get_credential_hash (self w1) = __get_credential_hash (self w2)
  /\ (__generate_auth_key w1).1 = (__generate_auth_key w2).1
  /\ ((__generate_auth_key w1).1 = Ok tt ->
      _auth_key (self (__generate_auth_key w1).2) = _auth_key (self (__generate_auth_key w2).2)
      /\ _auth_key (self (__generate_auth_key w1).2) <> None).
Proof.
  intros (Hu & Hm & Hp & Hs & Hn & Hr).
  assert (Hc : __get_credential_hash (self w1) = __get_credential_hash (self w2)).
  { unfold __get_credential_hash. now rewrite Hu, Hm, Hp, Hs. }
  split; [exact Hc|].
  rewrite !generate_auth_key_run, Hc.
  destruct (__get_credential_hash (self w2)) as [h|e]; cbn [fst snd self _auth_key set_auth_key].
  - rewrite Hm, Hn, Hr. repeat split; congruence.
  - split; [reflexivity|]. discriminate.
Qed.

Lemma auth_key_deterministic_witness :
  let w1 := fresh (admin_client (Member SHA512) "192.168.1.1" 5) in
  let w2 := {| self := admin_client (Member SHA512) "10.0.0.138" 77;
               stdout := ["Unauthorized"]; wire := [] |} in
  _auth_key (self (__generate_auth_key w1).2) = _auth_key (self (__generate_auth_key w2).2).
Proof.
  intros w1 w2.
  refine (proj1 (proj2 (proj2 (auth_key_deterministic w1 w2 _)) _)).
  - vm_compute. repeat split.
  - vm_compute. reflexivity.
Defined.

(** C10. With an [authentication_method] that is no member of the
    enumeration, [__generate_hash] hands its argument back: the stored
    password hash is the plaintext password, the credential hash is the
    plain [username:server_nonce:password_hash], and the key is that text
    with the request ID, the nonce and the protocol suffix appended, which
    is no hex digest of any size. *)
Theorem unknown_method_hashes_nothing
  (o : value) (host user password : string) (w : world) (server_nonce : string) :
  authentication_method (self w) = Other o ->
  _server_nonce (self w) = VStr server_nonce ->
  let c := self w in
  let credential := username c +:+ ":" +:+ server_nonce +:+ ":" +:+ _password_hash c in
  let auth_string :=
    credential +:+ ":" +:+ str_int (_request_id c) +:+ ":" +:+ str_nonce (_current_nonce c)
      +:+ ":JSON:/cgi/json-req" in
  (forall value, __generate_hash (Other o) value = value)
  /\ _password_hash (__init__ host user password (Other o)) = password
  /\ __get_credential_hash c = Ok credential
  /\ (exists w', __generate_auth_key w = (Ok tt, w')
                 /\ _auth_key (self w') = Some auth_string)
  /\ (forall n, ~ is_hexdigest n credential)
  /\ (forall n, ~ is_hexdigest n auth_string).
Proof.
  intros Hm Hs c credential auth_string.
  assert (Hc : __get_credential_hash c = Ok credential).
  { subst c. now rewrite (get_credential_hash_str _ _ Hs), Hm. }
  split; [reflexivity|]. split; [reflexivity|]. split; [exact Hc|].
  split; [|split].
  - eexists. split.
    + rewrite generate_auth_key_run. fold c. rewrite Hc. reflexivity.
    + cbn [self _auth_key set_auth_key]. subst c. now rewrite Hm.
  - intros n [_ H]. subst credential.
    rewrite !list_ascii_of_string_append, !forallb_app in H.
    apply andb_true_iff in H as [_ H]. discriminate H.
  - intros n. subst auth_string.
    rewrite <- !append_assoc. apply suffixed_not_hexdigest.
Qed.

Lemma unknown_method_hashes_nothing_witness :
  _password_hash (__init__ "192.168.1.1" "admin" "secret" (Other (VStr "MD5"))) = "secret"
  /\ _auth_key (self (__generate_auth_key
                        (fresh (admin_client (Other (VStr "MD5")) "192.168.1.1" 5))).2)
     = Some "admin:abc:secret:1:0:JSON:/cgi/json-req".
Proof.
  destruct (unknown_method_hashes_nothing (VStr "MD5") "192.168.1.1" "admin" "secret"
              (fresh (admin_client (Other (VStr "MD5")) "192.168.1.1" 5)) "abc"
              eq_refl eq_refl) as (_ & Hp & _ & (w' & Hrun & Hkey) & _).
  split; [exact Hp|]. rewrite Hrun. exact Hkey.
Defined.

End AuthKey.

(* ===================================================================== *)
(** * The generic request path *)
(* ===================================================================== *)

Section RequestPath.

Variable repr : value -> string.

Lemma int_is_200 (a : Z) : int_is a 200 = (a =? 200).
Proof. unfold int_is. simpl. now rewrite !andb_true_r. Qed.

Lemma int_is_400 (a : Z) : int_is a 400 = false.
Proof. unfold int_is. simpl. now rewrite andb_false_r. Qed.

Lemma generate_nonce_run (d : Z) (w : world) :
  __generate_nonce d w
  = (Ok tt, {| self := set_current_nonce (Some 0) (self w);
               stdout := stdout w; wire := wire w |}).
Proof.
  unfold __generate_nonce, bind, lift, randrange, update_self, floor. simpl.
  now rewrite Z.mod_1_r.
Qed.

(** A server nonce that is no text stops the request before it is built:
    the counter and the nonce have moved, nothing was sent. *)
Lemma api_request_unsent (actions : value) (priority : bool) (env : io) (w : world) :
  (forall sn, _server_nonce (self w) <> VStr sn) ->
  __api_request_async repr actions priority env w
  = (Raise TypeError, {| self := stepped (self w); stdout := stdout w; wire := wire w |}).
Proof.
  intros H. unfold __api_request_async.
  unfold bind at 1. unfold __generate_request_id at 1, update_self at 1.
  unfold bind at 1. rewrite generate_nonce_run.
  unfold bind at 1. rewrite generate_auth_key_run.
  cbn [self stdout wire].
  rewrite get_credential_hash_not_str; [reflexivity|].
  intros sn. cbn. apply H.
Qed.

(** With a text for server nonce the request leaves, carrying the bumped
    counter, nonce 0 and the key derived from them; what comes back is
    [outcome] of the exchange. *)
Lemma api_request_sent (actions : value) (priority : bool) (env : io) (w : world)
  (sn : string) :
  _server_nonce (self w) = VStr sn ->
  let c := stepped (self w) in
  let rq := {| rq_url := "http://" +:+ host c +:+ "/cgi/json-req";
               rq_id := _request_id (self w) + 1;
               rq_session_id := str repr (_session_id c);
               rq_priority := priority;
               rq_actions := actions;
               rq_cnonce := Some 0;
               rq_auth_key := key_of c sn |} in
  exists out,
    __api_request_async repr actions priority env w
    = (outcome (http env),
       {| self := set_auth_key (Some (key_of c sn)) c;
          stdout := (stdout w ++ out)%list;
          wire := (wire w ++ [rq])%list |}).
Proof.
  intros H c rq. unfold __api_request_async.
  unfold bind at 1. unfold __generate_request_id at 1, update_self at 1.
  unfold bind at 1. rewrite generate_nonce_run.
  unfold bind at 1. rewrite generate_auth_key_run.
  cbn [self stdout wire]. fold (stepped (self w)). fold c.
  rewrite (get_credential_hash_str c sn) by exact H.
  fold (key_of c sn).
  unfold bind at 1. unfold get_self at 1. cbn [self stdout wire].
  unfold bind at 1. unfold lift at 1. cbn [_auth_key set_auth_key].
  unfold bind at 1. unfold post at 1. cbn [self stdout wire].
  change (_request_id (set_auth_key (Some (key_of c sn)) c)) with (_request_id (self w) + 1).
  change (host (set_auth_key (Some (key_of c sn)) c)) with (host c).
  change (_session_id (set_auth_key (Some (key_of c sn)) c)) with (_session_id c).
  change (_current_nonce (set_auth_key (Some (key_of c sn)) c)) with (Some 0).
  fold rq.
  destruct (http env) as [|r]; cbn [outcome].
  { exists []. now rewrite app_nil_r. }
  rewrite int_is_400, int_is_200.
  destruct (status r =? 200) eqn:E200.
  - unfold bind, ret, lift, print; cbn [negb self stdout wire].
    destruct (json r) as [body|]; [|exists []; now rewrite app_nil_r].
    destruct (__get_response_error body) as [error|e]; cbn [rbind];
      [|exists []; now rewrite app_nil_r].
    destruct (error.["description"]) as [d|e]; cbn [rbind];
      [|exists []; now rewrite app_nil_r].
    destruct (ne_str d "XMO_REQUEST_NO_ERR"); cbn [self stdout wire].
    + now exists [str repr error].
    + exists []. now rewrite app_nil_r.
  - unfold bind, ret, lift, print; cbn [negb self stdout wire].
    now exists [text r].
Qed.

Lemma bind_lift_snd {A B} (m : M A) (f : A -> result B) (w : world) :
  (bind m (fun x => lift (f x)) w).2 = (m w).2.
Proof. unfold bind, lift. destruct (m w) as [[a|e] w']; reflexivity. Qed.

(** [login], branch by branch, on top of the request it sends. *)
Lemma login_run (env : io) (w : world) :
  let sent := __api_request_async repr (VList [login_actions (self w)]) true env w in
  login repr env w
  = match sent.1 with
    | Raise e => (Raise e, sent.2)
    | Ok response =>
        match __get_response_value response 0 with
        | Raise e => (Raise e, sent.2)
        | Ok data =>
            match data.["id"] with
            | Raise e => (Raise e, sent.2)
            | Ok id =>
                if is_not_None id then
                  match data.["nonce"] with
                  | Raise e => (Raise e, sent.2)
                  | Ok nonce =>
                      if is_not_None nonce then
                        (Ok true,
                         {| self := set_server_nonce nonce (set_session_id id (self sent.2));
                            stdout := stdout sent.2;
                            wire := wire sent.2 |})
                      else (Ok false, sent.2)
                  end
                else (Ok false, sent.2)
            end
        end
    end.
Proof.
  intros sent. unfold login.
  unfold bind at 1. unfold get_self at 1.
  unfold bind at 1. fold sent.
  destruct sent as [[response|e] w']; [|reflexivity]. cbn [fst snd].
  unfold bind at 1. unfold lift at 1.
  destruct (__get_response_value response 0) as [data|e]; [|reflexivity].
  unfold bind at 1. unfold lift at 1.
  destruct (data.["id"]) as [id|e]; [|reflexivity].
  destruct (is_not_None id); [|reflexivity].
  unfold bind at 1. unfold lift at 1.
  destruct (data.["nonce"]) as [nonce|e]; [|reflexivity].
  destruct (is_not_None nonce); reflexivity.
Qed.

Lemma is_not_None_true (o : value) : is_not_None o = true <-> o <> VNone.
Proof. destruct o; simpl; split; congruence. Qed.

(** The request path leaves the session alone. *)
Lemma api_request_keeps_session (actions : value) (priority : bool) (env : io) (w : world) :
  let w' := (__api_request_async repr actions priority env w).2 in
  _session_id (self w') = _session_id (self w)
  /\ _server_nonce (self w') = _server_nonce (self w).
Proof.
  destruct (_server_nonce (self w)) eqn:E;
    try (rewrite api_request_unsent by (intros sn; rewrite E; discriminate);
         split; [reflexivity | now rewrite <- E]).
  destruct (api_request_sent actions priority env w s E) as [out ->].
  split; [reflexivity | now rewrite <- E].
Qed.


(** The scenario of a successful login. *)
Lemma login_scenario_success :
  let env := {| draw := 7;
                http := Response (reply_with (VDict {[ "id" := VInt 5;
                                                        "nonce" := VStr "abc" ]})) |} in
  let r := login repr env new_client in
  r.1 = Ok true
  /\ _session_id (self r.2) = VInt 5
  /\ _server_nonce (self r.2) = VStr "abc".
Proof. vm_compute. auto. Qed.

(** The scenario of a login answered with a null [id]. *)
Lemma login_scenario_null_id :
  let env := {| draw := 7;
                http := Response (reply_with (VDict {[ "id" := VNone;
                                                        "nonce" := VStr "abc" ]})) |} in
  let r := login repr env new_client in
  r.1 = Ok false
  /\ _session_id (self r.2) = VInt 0
  /\ _server_nonce (self r.2) = VStr "".
Proof. vm_compute. auto. Qed.

(** Every operation leaves the state its request left, or, for a login
    that succeeded, that state with a new session ID and server nonce. *)
Lemma perform_snd (op : operation) (env : io) (w : world) :
  exists actions priority,
    (perform repr op env w).2 = (__api_request_async repr actions priority env w).2
    \/ exists response id nonce,
         (__api_request_async repr actions priority env w).1 = Ok response
         /\ (perform repr op env w).2
            = {| self := set_server_nonce nonce
                           (set_session_id id
                              (self (__api_request_async repr actions priority env w).2));
                 stdout := stdout (__api_request_async repr actions priority env w).2;
                 wire := wire (__api_request_async repr actions priority env w).2 |}.
Proof.
  destruct op; cbn [perform];
    try (eexists _, _; left; unfold get_device_info, get_port_mappings, get_hosts, reboot;
         apply bind_lift_snd).
  exists (VList [login_actions (self w)]), true.
  unfold bind. rewrite login_run. cbv zeta.
  destruct (__api_request_async repr (VList [login_actions (self w)]) true env w)
    as [[response|e] w']; cbn [fst snd]; [|now left].
  destruct (__get_response_value response 0) as [data|e]; [|now left].
  destruct (data.["id"]) as [id|e]; [|now left].
  destruct (is_not_None id); [|now left].
  destruct (data.["nonce"]) as [nonce|e]; [|now left].
  destruct (is_not_None nonce); [|now left].
  right. now exists response, id, nonce.
Qed.

(** One call: the counter moves by one; either the request left with the
    new counter and nonce 0, or the server nonce is no text, nothing was
    sent and the server nonce stays as it is. *)
Lemma perform_effect (op : operation) (env : io) (w : world) :
  let w' := (perform repr op env w).2 in
  _request_id (self w') = _request_id (self w) + 1
  /\ ((exists sn rq,
         _server_nonce (self w) = VStr sn
         /\ wire w' = (wire w ++ [rq])%list
         /\ rq_id rq = _request_id (self w) + 1
         /\ rq_cnonce rq = Some 0)
      \/ ((forall sn, _server_nonce (self w) <> VStr sn)
          /\ wire w' = wire w
          /\ _server_nonce (self w') = _server_nonce (self w))).
Proof.
  cbv zeta.
  destruct (perform_snd op env w) as (actions & priority & H).
  destruct (_server_nonce (self w)) eqn:E.
  5:{ destruct (api_request_sent actions priority env w s E) as [out Hs].
      rewrite Hs in H. cbn [fst snd self stdout wire] in H.
      destruct H as [-> | (response & id & nonce & _ & ->)]; cbn [self wire];
        (split; [reflexivity|]); left; eexists _, _; repeat split. }
  all: rewrite api_request_unsent in H by (intros sn; rewrite E; discriminate);
    cbn [fst snd self stdout wire] in H;
    destruct H as [-> | (response & id & nonce & [=] & _)]; cbn [self wire];
    (split; [reflexivity|]); right; repeat split; try discriminate;
    now rewrite <- E.
Qed.

Lemma perform_invariant (op : operation) (env : io) (n : nat) (w : world) :
  counter_invariant n w -> counter_invariant (S n) (perform repr op env w).2.
Proof.
  intros (Hid & Hwire & Hall & Hfirst & Hsome).
  destruct (perform_effect op env w) as (Hid' & Hcase). cbv zeta in *.
  unfold counter_invariant. rewrite Hid', Hid.
  split; [lia|].
  destruct Hcase as [(sn & rq & Hs & Hw & Hrq & Hn) | (Hs & Hw & Hs')].
  - assert (Hlen : length (wire w) = n) by (apply Hall; eauto).
    rewrite Hw. split; [|split; [|split]].
    + intros i rq' Hi. apply lookup_app_Some in Hi as [Hi | [Hge Hi]].
      * now apply Hwire.
      * apply list_lookup_singleton_Some in Hi as [Hi <-].
        split; [|exact Hn]. rewrite Hrq, Hid. lia.
    + intros _. rewrite length_app. simpl. lia.
    + discriminate.
    + intros _. rewrite length_app. simpl. lia.
  - rewrite Hw, Hs'. split; [exact Hwire|]. split; [|split].
    + intros [sn Hsn]. now destruct (Hs sn).
    + discriminate.
    + intros _. destruct n as [|n].
      * destruct (Hfirst eq_refl) as [sn Hsn]. now destruct (Hs sn).
      * apply Hsome. lia.
Qed.

Lemma run_invariant (calls : list (operation * io)) (n : nat) (w : world) :
  counter_invariant n w -> counter_invariant (n + length calls) (run repr calls w).
Proof.
  revert n w. induction calls as [|[op env] calls IH]; intros n w H.
  - simpl. now rewrite Nat.add_0_r.
  - simpl. replace (n + S (length calls))%nat with (S n + length calls)%nat by lia.
    apply IH. now apply perform_invariant.
Qed.

Lemma init_invariant (host user password : string) (m : method_object) :
  counter_invariant 0 (fresh (__init__ host user password m)).
Proof.
  unfold counter_invariant. simpl.
  split; [reflexivity|]. split; [intros i rq H; discriminate H|].
  split; [reflexivity|]. split; [eauto|lia].
Qed.

(** C4. Calls made one after the other on a client just constructed: the
    stored counter, -1 at first, has moved by one per call; the request
    sent in position [i] carries ID [i], so the first carries 0 and each
    following one exactly one more; the first call always sends its
    request, and every call does as long as the server nonce is a text. *)
Theorem request_ids_sequential
  (host user password : string) (m : method_object) (calls : list (operation * io)) :
  let w := run repr calls (fresh (__init__ host user password m)) in
  _request_id (fresh (__init__ host user password m)).(self) = -1
  /\ _request_id (self w) = Z.of_nat (length calls) - 1
  /\ (forall i rq, wire w !! i = Some rq -> rq_id rq = Z.of_nat i)
  /\ (forall i rq rq', wire w !! i = Some rq -> wire w !! S i = Some rq' ->
        rq_id rq' = rq_id rq + 1)
  /\ (calls <> [] -> exists rq, wire w !! 0%nat = Some rq /\ rq_id rq = 0)
  /\ ((exists sn, _server_nonce (self w) = VStr sn) -> length (wire w) = length calls).
Proof.
  intros w.
  destruct (run_invariant calls 0 _ (init_invariant host user password m))
    as (Hid & Hwire & Hall & _ & Hsome).
  fold w in Hid, Hwire, Hall, Hsome. simpl in Hid, Hall, Hsome.
  split; [reflexivity|]. split; [exact Hid|]. split; [|split; [|split]].
  - intros i rq H. now apply Hwire.
  - intros i rq rq' H H'. apply Hwire in H as [-> _]. apply Hwire in H' as [-> _]. lia.
  - intros Hne.
    assert (Hlen : (0 < length (wire w))%nat).
    { apply Hsome. destruct calls; [congruence | simpl; lia]. }
    destruct (wire w) as [|rq l] eqn:E; [simpl in Hlen; lia|].
    exists rq. split; [reflexivity|].
    now destruct (Hwire 0%nat rq eq_refl).
  - exact Hall.
Qed.

(** C5, as the code has it. The nonce [__generate_nonce] stores is 0
    whatever the generator draws, and every request a client ever sends
    carries nonce 0. *)
Theorem nonce_is_always_zero
  (host user password : string) (m : method_object) (calls : list (operation * io)) :
  (forall d w, _current_nonce (self (__generate_nonce d w).2) = Some 0)
  /\ (forall d, randrange d 0 1 = Ok 0)
  /\ (forall i rq,
        wire (run repr calls (fresh (__init__ host user password m))) !! i = Some rq ->
        rq_cnonce rq = Some 0).
Proof.
  split; [|split].
  - intros d w. now rewrite generate_nonce_run.
  - intros d. unfold randrange. simpl. now rewrite Z.mod_1_r.
  - intros i rq H.
    destruct (run_invariant calls 0 _ (init_invariant host user password m))
      as (_ & Hwire & _).
    now apply Hwire in H.
Qed.

(** Three calls in a row: a login, then two reads. *)
Lemma request_ids_example :
  let login_reply := reply_with (VDict {[ "id" := VInt 5; "nonce" := VStr "abc" ]}) in
  let calls := [ (Login, answered login_reply);
                 (GetHosts, answered unauthorized_reply);
                 (GetDeviceInfo, answered (reply_with (VDict ∅))) ] in
  rq_id <$> wire (run repr calls new_client) = [0; 1; 2]
  /\ rq_cnonce <$> wire (run repr calls new_client) = [Some 0; Some 0; Some 0]
  /\ rq_auth_key <$> wire (run repr calls new_client)
     = [ "9d5ddbb700fa9669f7c2a1cc79ec72a8";
         "a4f5dd4cfd19ad09cf1497e53e6c827a";
         "0158af2f8e44cf274e1849bc59266736" ].
Proof. vm_compute. auto. Qed.

(** C2, as the code has it. A 200 response whose error description is not
    the success sentinel is printed and its body returned: the request
    path returns normally and [get_device_info] returns [None]. A 401
    response is printed and its text returned by the request path;
    [get_device_info] then fails with a [TypeError] from subscripting that
    text, which carries neither status nor body. *)
Theorem errors_are_printed_and_returned :
  let sent := __api_request_async repr (VList []) false
                (answered protocol_error_reply) new_client in
  let read := get_device_info repr (answered protocol_error_reply) new_client in
  let sent' := __api_request_async repr (VList []) false
                 (answered unauthorized_reply) new_client in
  let read' := get_device_info repr (answered unauthorized_reply) new_client in
  sent.1 = match json protocol_error_reply with
           | Some body => Ok body
           | None => Raise JSONDecodeError
           end
  /\ stdout sent.2 = [repr (VDict {[ "description" := VStr "XMO_AUTHENTICATION_ERR" ]})]
  /\ read.1 = Ok VNone
  /\ sent'.1 = Ok (VStr "Unauthorized")
  /\ stdout sent'.2 = ["Unauthorized"]
  /\ read'.1 = Raise TypeError.
Proof. vm_compute. repeat split. Qed.

(** The unwrapping functions never let a [KeyError] out. *)
Lemma unwrapping_catches_KeyError (response : value) (index : Z) :
  __get_response_error response <> Raise KeyError
  /\ __get_response_value response index <> Raise KeyError.
Proof.
  unfold __get_response_error, __get_response_value, except_KeyError.
  split.
  - destruct (rbind _ _) as [v|[]]; discriminate.
  - destruct (rbind _ _) as [v|[]]; discriminate.
Qed.

(** C6, as the code has it. Only [KeyError] is caught: a null [reply]
    makes both unwrapping functions raise [TypeError], an empty [actions]
    list makes [__get_response_value] raise [IndexError]; and where a key
    is missing and the unwrapping does yield [None], the callers subscript
    that [None]: the request path raises [TypeError] on a 200 response
    without [reply], and [login] raises [TypeError] on one without
    [actions]. *)
Theorem unexpected_shapes_raise :
  __get_response_error (VDict {[ "reply" := VNone ]}) = Raise TypeError
  /\ __get_response_value (VDict {[ "reply" := VNone ]}) 0 = Raise TypeError
  /\ __get_response_value (VDict {[ "reply" := VDict {[ "actions" := VList [] ]} ]}) 0
     = Raise IndexError
  /\ __get_response_error (VDict ∅) = Ok VNone
  /\ (__api_request_async repr (VList []) false (answered empty_reply) new_client).1
     = Raise TypeError
  /\ (get_hosts repr (answered empty_reply) new_client).1 = Raise TypeError
  /\ (get_hosts repr (answered no_actions_reply) new_client).1 = Ok VNone
  /\ (login repr (answered no_actions_reply) new_client).1 = Raise TypeError.
Proof. vm_compute. repeat split. Qed.

End RequestPath.

(* ===================================================================== *)
(** * Host records *)
(* ===================================================================== *)

Section Hosts.

(** What a successful [make_device] says of the raw host. *)
Lemma make_device_fields (d : value) (dev : Device) :
  make_device d = Ok dev ->
  exists phys user,
    d.["PhysAddress"] = Ok (VStr phys)
    /\ mac_address dev = upper phys
    /\ d.["UserHostName"] = Ok user
    /\ or_else user (d.["HostName"]) = Ok (name dev)
    /\ d.["Active"] = Ok (active dev).
Proof.
  unfold make_device. intros H.
  destruct (d.["PhysAddress"]) as [phys|] eqn:Ephys; [|discriminate].
  cbn [rbind] in H.
  destruct phys as [| | | |phys| |]; try discriminate. cbn [call_upper rbind] in H.
  repeat match type of H with
         | rbind ?r _ = _ => destruct r eqn:?; cbn [rbind] in H; [|discriminate]
         end.
  injection H as <-. cbn.
  eexists _, _. repeat split; eassumption.
Qed.

Lemma parse_loop_all (items : list value) (devs acc : list Device) :
  Forall2 normalizes_to items devs ->
  parse_loop false items acc = Ok (acc ++ devs)%list.
Proof.
  intros H. revert acc. induction H as [|d dev items devs Hd _ IH]; intros acc.
  - simpl. now rewrite app_nil_r.
  - cbn [parse_loop wanted negb rbind]. rewrite Hd. cbn [rbind].
    rewrite IH. now rewrite <- app_assoc.
Qed.

Lemma parse_loop_active (items : list value) (devs acc : list Device) :
  Forall2 normalizes_to items devs ->
  parse_loop true items acc
  = Ok (acc ++ List.filter (fun dev => truthy (active dev)) devs)%list.
Proof.
  intros H. revert acc. induction H as [|d dev items devs Hd _ IH]; intros acc.
  - simpl. now rewrite app_nil_r.
  - destruct (make_device_fields d dev Hd) as (phys & user & _ & _ & _ & _ & Ha).
    cbn [parse_loop wanted negb List.filter]. rewrite Ha. cbn [rbind].
    destruct (truthy (active dev)).
    + rewrite Hd. cbn [rbind]. rewrite IH. now rewrite <- app_assoc.
    + apply IH.
Qed.

Lemma filter_normalizes (items : list value) (devs : list Device) :
  Forall2 normalizes_to items devs ->
  Forall2 normalizes_to (List.filter active_flag items)
    (List.filter (fun dev => truthy (active dev)) devs).
Proof.
  induction 1 as [|d dev items devs Hd _ IH]; [constructor|].
  destruct (make_device_fields d dev Hd) as (phys & user & _ & _ & _ & _ & Ha).
  cbn [List.filter]. unfold active_flag at 1. rewrite Ha.
  destruct (truthy (active dev)); [constructor|]; assumption.
Qed.

(** C7. Raw hosts that each normalize: with [only_active] false
    [parse_devices] returns the record of every one of them, in order;
    with [only_active] true it returns the records whose active flag is
    truthy and no other, and these are the records of the inputs whose
    active flag is truthy. *)
Theorem parse_devices_filters_on_active (data : list value) (devs : list Device) :
  Forall2 normalizes_to data devs ->
  parse_devices (VList data) false = Ok devs
  /\ parse_devices (VList data) true
     = Ok (List.filter (fun dev => truthy (active dev)) devs)
  /\ Forall2 normalizes_to (List.filter active_flag data)
       (List.filter (fun dev => truthy (active dev)) devs).
Proof.
  intros H. unfold parse_devices. cbn [iterate rbind].
  split; [|split].
  - now rewrite (parse_loop_all data devs []).
  - now rewrite (parse_loop_active data devs []).
  - now apply filter_normalizes.
Qed.

Lemma parse_devices_filters_on_active_witness :
  parse_devices (VList [laptop; phone]) false
  = Ok [ host_device false "AA:BB:CC:DD:EE:FF" "laptop";
         host_device true "11:22:33:AA:BB:CC" "My phone" ]
  /\ parse_devices (VList [laptop; phone]) true
     = Ok [ host_device true "11:22:33:AA:BB:CC" "My phone" ].
Proof.
  assert (H : Forall2 normalizes_to [laptop; phone]
                [ host_device false "AA:BB:CC:DD:EE:FF" "laptop";
                  host_device true "11:22:33:AA:BB:CC" "My phone" ]).
  { repeat constructor; vm_compute; reflexivity. }
  destruct (parse_devices_filters_on_active _ _ H) as (Hall & Hactive & _).
  split; [exact Hall | exact Hactive].
Defined.

Lemma upper_char_not_lower (c : ascii) : is_lower_char (upper_char c) = false.
Proof. destruct c as [[] [] [] [] [] [] [] []]; reflexivity. Qed.

Lemma high_byte_not_lower (c : ascii) :
  (code c <? 0x80) = false -> is_lower_char c = false.
Proof.
  destruct c as [[] [] [] [] [] [] [] []]; vm_compute; intros H;
    solve [reflexivity | discriminate H].
Qed.

Lemma continuation_not_lower (c : ascii) :
  is_continuation (code c) = true -> is_lower_char c = false.
Proof.
  unfold is_continuation. intros H. apply andb_true_iff in H as [H _].
  apply high_byte_not_lower. apply Z.ltb_ge. now apply Z.leb_le in H.
Qed.

Lemma assoc_forallb (P : list Z -> bool) (table : list (Z * list Z)) (cp : Z)
  (out : list Z) :
  forallb (fun e => P e.2) table = true -> assoc cp table = Some out -> P out = true.
Proof.
  induction table as [|[k o] table IH]; [discriminate|].
  cbn [forallb assoc snd]. intros H Ha. apply andb_true_iff in H as [Ho Ht].
  destruct (k =? cp); [congruence | now apply IH].
Qed.

(** No entry of the mapping writes a letter of [a-z]. *)
Lemma unicode_upper_no_lower (cp : Z) (out : list Z) :
  assoc cp unicode_upper = Some out ->
  forallb (fun c => negb (is_lower_char c)) (concat (encode <$> out)) = true.
Proof.
  apply (assoc_forallb
           (fun o => forallb (fun c => negb (is_lower_char c)) (concat (encode <$> o)))).
  vm_compute. reflexivity.
Qed.

Lemma mapped_no_lower (cp : Z) (original : list ascii) :
  forallb (fun c => negb (is_lower_char c)) original = true ->
  forallb (fun c => negb (is_lower_char c)) (mapped cp original) = true.
Proof.
  intros H. unfold mapped.
  destruct (assoc cp unicode_upper) eqn:E; [|exact H].
  now apply (unicode_upper_no_lower cp).
Qed.

Lemma decode2_continuation (b0 b1 cp : Z) :
  decode2 b0 b1 = Some cp -> is_continuation b1 = true.
Proof.
  unfold decode2. destruct (is_continuation b1); [reflexivity|].
  now rewrite andb_false_r.
Qed.

Lemma decode3_continuation (b0 b1 b2 cp : Z) :
  decode3 b0 b1 b2 = Some cp -> is_continuation b1 = true /\ is_continuation b2 = true.
Proof.
  unfold decode3.
  destruct (is_continuation b1), (is_continuation b2); auto;
    now rewrite ?andb_false_r, ?andb_false_l.
Qed.

Lemma decode4_continuation (b0 b1 b2 b3 cp : Z) :
  decode4 b0 b1 b2 b3 = Some cp ->
  is_continuation b1 = true /\ is_continuation b2 = true /\ is_continuation b3 = true.
Proof.
  unfold decode4.
  destruct (is_continuation b1), (is_continuation b2), (is_continuation b3); auto;
    now rewrite ?andb_false_r, ?andb_false_l.
Qed.

(** [upper_chars], one step unfolded. *)
Lemma upper_chars_cons (c0 : ascii) (l0 : list ascii) :
  upper_chars (c0 :: l0)
  = if code c0 <? 0x80 then upper_char c0 :: upper_chars l0
    else
      match l0 with
      | [] => c0 :: upper_chars l0
      | c1 :: l1 =>
          match decode2 (code c0) (code c1) with
          | Some cp => (mapped cp [c0; c1] ++ upper_chars l1)%list
          | None =>
              match l1 with
              | [] => c0 :: upper_chars l0
              | c2 :: l2 =>
                  match decode3 (code c0) (code c1) (code c2) with
                  | Some cp => (mapped cp [c0; c1; c2] ++ upper_chars l2)%list
                  | None =>
                      match l2 with
                      | [] => c0 :: upper_chars l0
                      | c3 :: l3 =>
                          match decode4 (code c0) (code c1) (code c2) (code c3) with
                          | Some cp =>
                              (mapped cp [c0; c1; c2; c3] ++ upper_chars l3)%list
                          | None => c0 :: upper_chars l0
                          end
                      end
                  end
              end
          end
      end.
Proof.
  destruct l0 as [|c1 [|c2 [|c3 l3]]]; reflexivity.
Qed.

Lemma upper_chars_no_lower (n : nat) (l : list ascii) :
  (length l <= n)%nat ->
  forallb (fun c => negb (is_lower_char c)) (upper_chars l) = true.
Proof.
  revert l. induction n as [|n IH]; intros l Hn.
  { destruct l; [reflexivity | cbn in Hn; lia]. }
  destruct l as [|c0 l0]; [reflexivity|].
  rewrite upper_chars_cons. cbn [length] in Hn.
  assert (IH0 : forallb (fun c => negb (is_lower_char c)) (upper_chars l0) = true)
    by (apply IH; lia).
  destruct (code c0 <? 0x80) eqn:E0.
  { cbn [forallb]. now rewrite upper_char_not_lower, IH0. }
  pose proof (high_byte_not_lower c0 E0) as H0.
  assert (Hraw : forallb (fun c => negb (is_lower_char c)) (c0 :: upper_chars l0) = true)
    by (cbn [forallb]; now rewrite H0, IH0).
  destruct l0 as [|c1 l1]; [exact Hraw|]. cbn [length] in Hn.
  destruct (decode2 (code c0) (code c1)) as [cp|] eqn:E2.
  { rewrite forallb_app. apply andb_true_iff. split; [|apply IH; lia].
    apply mapped_no_lower. cbn [forallb].
    now rewrite H0, (continuation_not_lower c1 (decode2_continuation _ _ _ E2)). }
  destruct l1 as [|c2 l2]; [exact Hraw|]. cbn [length] in Hn.
  destruct (decode3 (code c0) (code c1) (code c2)) as [cp|] eqn:E3.
  { rewrite forallb_app. apply andb_true_iff. split; [|apply IH; lia].
    apply mapped_no_lower. cbn [forallb].
    destruct (decode3_continuation _ _ _ _ E3) as [H1 H2].
    now rewrite H0, (continuation_not_lower c1 H1), (continuation_not_lower c2 H2). }
  destruct l2 as [|c3 l3]; [exact Hraw|]. cbn [length] in Hn.
  destruct (decode4 (code c0) (code c1) (code c2) (code c3)) as [cp|] eqn:E4;
    [|exact Hraw].
  rewrite forallb_app. apply andb_true_iff. split; [|apply IH; lia].
  apply mapped_no_lower. cbn [forallb].
  destruct (decode4_continuation _ _ _ _ _ E4) as (H1 & H2 & H3).
  now rewrite H0, (continuation_not_lower c1 H1), (continuation_not_lower c2 H2),
    (continuation_not_lower c3 H3).
Qed.

Lemma upper_no_lower (s : string) : no_lower (upper s).
Proof.
  unfold no_lower, upper. rewrite list_ascii_of_string_of_list_ascii.
  now apply (upper_chars_no_lower (length (list_ascii_of_string s))).
Qed.

(** [upper] against [str.upper] of CPython on texts of several scripts:
    Latin with its special cases, Greek, Cyrillic, and Deseret outside the
    basic plane. *)
Lemma upper_examples :
  upper "aa:bb:cc:dd:ee:ff" = "AA:BB:CC:DD:EE:FF"
  /\ upper "éa:ß" = "ÉA:SS"
  /\ upper "ǆ ﬁ ŉ ÿ µ" = "Ǆ FI ʼN Ÿ Μ"
  /\ upper "ἀΐ привет" = "ἈΪ́ ПРИВЕТ"
  /\ upper "𐐨𐑏 ok" = "𐐀𐐧 OK".
Proof. vm_compute. repeat split. Qed.

(** Every record the loop returns was there before or was built from one
    of the items. *)
Lemma parse_loop_elem (only_active : bool) (items : list value) (acc devs : list Device)
  (dev : Device) :
  parse_loop only_active items acc = Ok devs ->
  dev ∈ devs ->
  dev ∈ acc \/ exists d, d ∈ items /\ make_device d = Ok dev.
Proof.
  revert acc. induction items as [|d items IH]; intros acc H Hin.
  - injection H as <-. now left.
  - cbn [parse_loop] in H.
    destruct (wanted only_active d) as [[|]|]; cbn [rbind] in H; try discriminate.
    + destruct (make_device d) as [dev'|] eqn:Ed; cbn [rbind] in H; [|discriminate].
      destruct (IH _ H Hin) as [Hacc | (d' & Hd' & Hm)].
      * apply elem_of_app in Hacc as [Hacc | Hnew]; [now left|].
        apply list_elem_of_singleton in Hnew as ->.
        right. exists d. split; [left | exact Ed].
      * right. exists d'. split; [now right | exact Hm].
    + destruct (IH _ H Hin) as [Hacc | (d' & Hd' & Hm)]; [now left|].
      right. exists d'. split; [now right | exact Hm].
Qed.

(** C8. Every record in the output of [parse_devices] comes from one of
    the raw hosts: its [mac_address] is that host's [PhysAddress] in upper
    case, holding no letter of [a-z] whatever the case of the input, and
    its [name] is the host's [UserHostName] when that is truthy and its
    [HostName] otherwise. *)
Theorem parsed_device_mac_and_name
  (data : value) (only_active : bool) (devs : list Device) (dev : Device) :
  parse_devices data only_active = Ok devs ->
  dev ∈ devs ->
  exists items device phys user,
    iterate data = Ok items /\ device ∈ items
    /\ device.["PhysAddress"] = Ok (VStr phys)
    /\ mac_address dev = upper phys
    /\ no_lower (mac_address dev)
    /\ device.["UserHostName"] = Ok user
    /\ (truthy user = true -> name dev = user)
    /\ (truthy user = false -> device.["HostName"] = Ok (name dev)).
Proof.
  unfold parse_devices. intros H Hin.
  destruct (iterate data) as [items|] eqn:Ei; cbn [rbind] in H; [|discriminate].
  destruct (parse_loop_elem _ _ _ _ _ H Hin) as [Hnil | (d & Hd & Hm)].
  { now apply elem_of_nil in Hnil. }
  destruct (make_device_fields d dev Hm) as (phys & user & Hp & Hmac & Hu & Hn & _).
  exists items, d, phys, user.
  split; [reflexivity|]. split; [exact Hd|]. split; [exact Hp|]. split; [exact Hmac|].
  split; [rewrite Hmac; apply upper_no_lower|]. split; [exact Hu|].
  unfold or_else in Hn. split; intros Ht; rewrite Ht in Hn; congruence.
Qed.

Lemma parsed_device_mac_and_name_witness :
  exists device phys user,
    device ∈ [laptop; phone]
    /\ device.["PhysAddress"] = Ok (VStr phys)
    /\ "AA:BB:CC:DD:EE:FF" = upper phys
    /\ device.["UserHostName"] = Ok user
    /\ (truthy user = false -> device.["HostName"] = Ok (VStr "laptop")).
Proof.
  destruct (parsed_device_mac_and_name (VList [laptop; phone]) false
              [ host_device false "AA:BB:CC:DD:EE:FF" "laptop";
                host_device true "11:22:33:AA:BB:CC" "My phone" ]
              (host_device false "AA:BB:CC:DD:EE:FF" "laptop"))
    as (items & device & phys & user & Hi & Hd & Hp & Hmac & _ & Hu & _ & Hn).
  - vm_compute. reflexivity.
  - left.
  - injection Hi as <-. exists device, phys, user. auto.
Defined.

End Hosts.

(* ===================================================================== *)
(** * More on the request path *)
(* ===================================================================== *)

Section Exchanges.

Variable repr : value -> string.

(** The whole effect of a request that leaves. *)
Lemma api_request_exact (actions : value) (priority : bool) (env : io) (w : world)
  (sn : string) :
  _server_nonce (self w) = VStr sn ->
  __api_request_async repr actions priority env w
  = (outcome (http env),
     {| self := set_auth_key (Some (key_of (stepped (self w)) sn)) (stepped (self w));
        stdout := (stdout w ++ printed repr (http env))%list;
        wire := (wire w ++ [ {| rq_url := "http://" +:+ host (self w) +:+ "/cgi/json-req";
                                rq_id := _request_id (self w) + 1;
                                rq_session_id := str repr (_session_id (self w));
                                rq_priority := priority;
                                rq_actions := actions;
                                rq_cnonce := Some 0;
                                rq_auth_key := key_of (stepped (self w)) sn |} ])%list |}).
Proof.
  intros H. unfold __api_request_async.
  unfold bind at 1. unfold __generate_request_id at 1, update_self at 1.
  unfold bind at 1. rewrite generate_nonce_run.
  unfold bind at 1. rewrite generate_auth_key_run.
  cbn [self stdout wire]. fold (stepped (self w)).
  rewrite (get_credential_hash_str (stepped (self w)) sn) by exact H.
  fold (key_of (stepped (self w)) sn).
  unfold bind at 1. unfold get_self at 1. cbn [self stdout wire].
  unfold bind at 1. unfold lift at 1. cbn [_auth_key set_auth_key].
  unfold bind at 1. unfold post at 1. cbn [self stdout wire].
  change (_request_id (set_auth_key (Some (key_of (stepped (self w)) sn)) (stepped (self w))))
    with (_request_id (self w) + 1).
  change (host (set_auth_key (Some (key_of (stepped (self w)) sn)) (stepped (self w))))
    with (host (self w)).
  change (_session_id (set_auth_key (Some (key_of (stepped (self w)) sn)) (stepped (self w))))
    with (_session_id (self w)).
  change (_current_nonce (set_auth_key (Some (key_of (stepped (self w)) sn)) (stepped (self w))))
    with (Some 0).
  destruct (http env) as [|r]; cbn [outcome printed].
  { now rewrite app_nil_r. }
  rewrite int_is_400, int_is_200.
  destruct (status r =? 200) eqn:E200.
  - unfold bind, ret, lift, print; cbn [negb self stdout wire].
    destruct (json r) as [body|]; [|now rewrite app_nil_r].
    destruct (__get_response_error body) as [error|e]; cbn [rbind];
      [|now rewrite app_nil_r].
    destruct (error.["description"]) as [d|e]; cbn [rbind];
      [|now rewrite app_nil_r].
    destruct (ne_str d "XMO_REQUEST_NO_ERR"); cbn [self stdout wire]; [reflexivity|].
    now rewrite app_nil_r.
  - unfold bind, ret, lift, print; cbn [negb self stdout wire]. reflexivity.
Qed.

(** X1. A call of the request path on a client whose server nonce is a
    text sends exactly one request: to [http://<host>/cgi/json-req], with
    the counter plus one for ID, [str] of the session ID, the priority and
    the actions it was given, nonce 0, and the key derived from the user
    name, that server nonce, the password hash, the new ID and nonce 0;
    that key is the one left in [_auth_key]. *)
Theorem request_envelope
  (actions : value) (priority : bool) (env : io) (w : world) (sn : string) :
  _server_nonce (self w) = VStr sn ->
  let c := self w in
  let hash := __generate_hash (authentication_method c) in
  let w' := (__api_request_async repr actions priority env w).2 in
  exists rq,
    wire w' = (wire w ++ [rq])%list
    /\ rq_url rq = "http://" +:+ host c +:+ "/cgi/json-req"
    /\ rq_id rq = _request_id c + 1
    /\ rq_session_id rq = str repr (_session_id c)
    /\ rq_priority rq = priority
    /\ rq_actions rq = actions
    /\ rq_cnonce rq = Some 0
    /\ rq_auth_key rq
       = hash (hash (username c +:+ ":" +:+ sn +:+ ":" +:+ _password_hash c)
               +:+ ":" +:+ str_int (_request_id c + 1) +:+ ":" +:+ "0"
               +:+ ":JSON:/cgi/json-req")
    /\ _auth_key (self w') = Some (rq_auth_key rq).
Proof.
  intros H c hash w'. subst w'. rewrite (api_request_exact _ _ _ _ _ H).
  cbn [snd wire self]. eexists. split; [reflexivity|].
  repeat split.
Qed.

(** X2. What the request path hands back once the request has left. Any
    status but 200: the body's text, as a [str], printed once (by the test
    [is not 200]; the test [is 400] compares identities and fails for an
    [int] made at run time, see [int_is]). Status 200
    with a body that does not decode: [JSONDecodeError], nothing printed.
    Status 200 with the success sentinel under [reply.error.description]:
    the decoded body, nothing printed. The client's fields are the same in
    all cases. *)
Theorem request_path_result
  (actions : value) (priority : bool) (env : io) (w : world) (sn : string)
  (r : http_response) :
  _server_nonce (self w) = VStr sn ->
  http env = Response r ->
  let sent := __api_request_async repr actions priority env w in
  self sent.2 = set_auth_key (Some (key_of (stepped (self w)) sn)) (stepped (self w))
  /\ (status r <> 200 ->
      sent.1 = Ok (VStr (text r)) /\ stdout sent.2 = (stdout w ++ [text r])%list)
  /\ (status r = 200 -> json r = None ->
      sent.1 = Raise JSONDecodeError /\ stdout sent.2 = stdout w)
  /\ (forall body error,
        status r = 200 -> json r = Some body ->
        __get_response_error body = Ok error ->
        error.["description"] = Ok (VStr "XMO_REQUEST_NO_ERR") ->
        sent.1 = Ok body /\ stdout sent.2 = stdout w).
Proof.
  intros H Hr sent. subst sent. rewrite (api_request_exact _ _ _ _ _ H), Hr.
  cbn [fst snd self stdout outcome printed].
  split; [reflexivity|]. split; [|split].
  - intros Hs. apply Z.eqb_neq in Hs. now rewrite Hs.
  - intros Hs Hj. rewrite Hs, Hj. cbn. now rewrite app_nil_r.
  - intros body error Hs Hj He Hd. rewrite Hs, Hj, He. cbn [Z.eqb Pos.eqb rbind].
    rewrite Hd. cbn. now rewrite app_nil_r.
Qed.

Lemma bind_lift_run {A B} (m : M A) (f : A -> result B) (w : world) :
  bind m (fun x => lift (f x)) w = (rbind (m w).1 f, (m w).2).
Proof. unfold bind, lift. destruct (m w) as [[a|e] w']; reflexivity. Qed.

(** Each read is its request followed by the unwrapping of what came
    back. *)
Lemma read_run (op : operation) (env : io) (w : world) :
  op <> Login ->
  exists actions,
    perform repr op env w
    = (rbind (__api_request_async repr actions false env w).1
         (fun response => __get_response_value response 0),
       (__api_request_async repr actions false env w).2).
Proof.
  intros Hop. destruct op; [congruence|..]; cbn [perform];
    unfold get_device_info, get_port_mappings, get_hosts, reboot;
    eexists; apply bind_lift_run.
Qed.

(** X3. [get_device_info], [get_port_mappings], [get_hosts] and [reboot]
    on a client whose server nonce is a text, answered with status 200 and
    a body whose [reply.error.description] can be read: each returns what
    [__get_response_value] makes of the body, whatever the description
    says. *)
Theorem reads_return_unwrapped_parameters
  (op : operation) (env : io) (w : world) (sn : string) (r : http_response)
  (body error description : value) :
  op <> Login ->
  _server_nonce (self w) = VStr sn ->
  http env = Response r ->
  status r = 200 ->
  json r = Some body ->
  __get_response_error body = Ok error ->
  error.["description"] = Ok description ->
  (perform repr op env w).1 = __get_response_value body 0.
Proof.
  intros Hop Hs Hr H200 Hj He Hd.
  destruct (read_run op env w Hop) as [actions ->].
  rewrite (api_request_exact _ _ _ _ _ Hs), Hr. cbn [fst outcome].
  rewrite H200, Hj, He. cbn [Z.eqb Pos.eqb rbind]. now rewrite Hd.
Qed.

(** X4. Any status but 200, on a client whose server nonce is a text:
    every operation, [login] included, raises [TypeError] (the text of the
    body is subscripted with a key), after the body has been printed once;
    the session ID and the server nonce stay as they were. *)
Theorem transport_error_raises_TypeError
  (op : operation) (env : io) (w : world) (sn : string) (r : http_response) :
  _server_nonce (self w) = VStr sn ->
  http env = Response r ->
  status r <> 200 ->
  let done := perform repr op env w in
  done.1 = Raise TypeError
  /\ stdout done.2 = (stdout w ++ [text r])%list
  /\ _session_id (self done.2) = _session_id (self w)
  /\ _server_nonce (self done.2) = _server_nonce (self w).
Proof.
  intros Hs Hr H200. apply Z.eqb_neq in H200. cbv zeta.
  assert (Hcase : op = Login \/ op <> Login)
    by (destruct op; [left; reflexivity | right; discriminate ..]).
  destruct Hcase as [-> | Hop].
  - cbn [perform]. unfold bind. rewrite login_run. cbv zeta.
    rewrite (api_request_exact _ _ _ _ _ Hs), Hr. cbn [fst snd outcome printed].
    rewrite H200. cbn [fst snd self stdout]. now rewrite Hs.
  - destruct (read_run op env w Hop) as [actions ->].
    rewrite (api_request_exact _ _ _ _ _ Hs), Hr. cbn [fst snd outcome printed].
    rewrite H200. cbn [fst snd self stdout rbind]. now rewrite Hs.
Qed.

Lemma perform_blocked (op : operation) (env : io) (w : world) :
  (forall sn, _server_nonce (self w) <> VStr sn) ->
  perform repr op env w
  = (Raise TypeError, {| self := stepped (self w); stdout := stdout w; wire := wire w |}).
Proof.
  intros H.
  assert (Hcase : op = Login \/ op <> Login)
    by (destruct op; [left; reflexivity | right; discriminate ..]).
  destruct Hcase as [-> | Hop].
  - cbn [perform]. unfold bind. rewrite login_run. cbv zeta.
    now rewrite (api_request_unsent repr _ _ _ _ H).
  - destruct (read_run op env w Hop) as [actions ->].
    now rewrite (api_request_unsent repr _ _ _ _ H).
Qed.

(** X5. Once the stored server nonce is not a text (a login answered
    with a number for nonce stores it as it is), every operation raises
    [TypeError] before anything is sent or printed, and it stays so: after
    any number of calls the wire and the output are what they were, and
    only the counter has moved. *)
Theorem non_text_nonce_blocks_every_call
  (w : world) (calls : list (operation * io)) :
  (forall sn, _server_nonce (self w) <> VStr sn) ->
  (forall op env, (perform repr op env w).1 = Raise TypeError)
  /\ wire (run repr calls w) = wire w
  /\ stdout (run repr calls w) = stdout w
  /\ _server_nonce (self (run repr calls w)) = _server_nonce (self w)
  /\ _request_id (self (run repr calls w)) = _request_id (self w) + Z.of_nat (length calls).
Proof.
  intros H. split.
  { intros op env. now rewrite perform_blocked. }
  revert w H. induction calls as [|[op env] calls IH]; intros w H.
  - cbn [run length]. repeat split. lia.
  - cbn [run]. rewrite (perform_blocked op env w H). cbn [snd].
    destruct (IH {| self := stepped (self w); stdout := stdout w; wire := wire w |})
      as (Hw & Ho & Hn & Hi).
    { intros sn. cbn. apply H. }
    rewrite Hw, Ho, Hn, Hi. cbn [self stdout wire length].
    repeat split. cbn. lia.
Qed.

(** X6. [get_device_info], [get_port_mappings], [get_hosts] and [reboot]
    never touch the session: whatever the exchange and whatever they
    return or raise, the session ID and the server nonce are the ones
    they found. *)
Theorem reads_keep_session (op : operation) (env : io) (w : world) :
  op <> Login ->
  _session_id (self (perform repr op env w).2) = _session_id (self w)
  /\ _server_nonce (self (perform repr op env w).2) = _server_nonce (self w).
Proof.
  intros Hop. destruct (read_run op env w Hop) as [actions ->]. cbn [snd].
  apply (api_request_keeps_session repr).
Qed.

Lemma perform_keeps_credentials (op : operation) (env : io) (w : world) :
  let c' := self (perform repr op env w).2 in
  host c' = host (self w)
  /\ username c' = username (self w)
  /\ authentication_method c' = authentication_method (self w)
  /\ _password_hash c' = _password_hash (self w).
Proof.
  cbv zeta.
  destruct (perform_snd repr op env w) as (actions & priority & H).
  destruct (_server_nonce (self w)) eqn:E.
  5:{ rewrite (api_request_exact _ _ _ _ _ E) in H. cbn [fst snd self stdout wire] in H.
      destruct H as [-> | (response & id & nonce & _ & ->)]; cbn; auto. }
  all: rewrite api_request_unsent in H by (intros sn; rewrite E; discriminate);
    cbn [fst snd self stdout wire] in H;
    destruct H as [-> | (response & id & nonce & _ & ->)]; cbn; auto.
Qed.

(** X7. Nothing a server answers and no call changes the host, the user
    name, the authentication method or the stored password hash of a
    client. *)
Theorem credentials_are_immutable (calls : list (operation * io)) (w : world) :
  host (self (run repr calls w)) = host (self w)
  /\ username (self (run repr calls w)) = username (self w)
  /\ authentication_method (self (run repr calls w)) = authentication_method (self w)
  /\ _password_hash (self (run repr calls w)) = _password_hash (self w).
Proof.
  revert w. induction calls as [|[op env] calls IH]; intros w; [now cbn|].
  cbn [run]. destruct (IH (perform repr op env w).2) as (Hh & Hu & Hm & Hp).
  destruct (perform_keeps_credentials op env w) as (Hh' & Hu' & Hm' & Hp').
  rewrite Hh, Hu, Hm, Hp. auto.
Qed.

Lemma wire_invariant_step
  (m : AuthenticationMethods) (h : string) (op : operation) (env : io) (w : world) :
  authentication_method (self w) = Member m ->
  host (self w) = h ->
  Forall (fun rq => rq_url rq = "http://" +:+ h +:+ "/cgi/json-req"
                    /\ is_hexdigest (digest_size m) (rq_auth_key rq)) (wire w) ->
  Forall (fun rq => rq_url rq = "http://" +:+ h +:+ "/cgi/json-req"
                    /\ is_hexdigest (digest_size m) (rq_auth_key rq))
    (wire (perform repr op env w).2).
Proof.
  intros Hm Hh Hall.
  destruct (perform_snd repr op env w) as (actions & priority & H).
  assert (Hsent : Forall (fun rq => rq_url rq = "http://" +:+ h +:+ "/cgi/json-req"
                                    /\ is_hexdigest (digest_size m) (rq_auth_key rq))
                    (wire (__api_request_async repr actions priority env w).2)).
  { destruct (_server_nonce (self w)) eqn:E;
      try (rewrite api_request_unsent by (intros sn; rewrite E; discriminate);
           exact Hall).
    rewrite (api_request_exact _ _ _ _ _ E). cbn [snd wire].
    apply Forall_app. split; [exact Hall|]. constructor; [|constructor].
    cbn [rq_url rq_auth_key]. split; [now rewrite Hh|].
    unfold key_of.
    change (authentication_method (stepped (self w))) with (authentication_method (self w)).
    rewrite Hm. exact (digest_is_hexdigest m _). }
  destruct H as [-> | (response & id & nonce & _ & ->)]; exact Hsent.
Qed.

(** X8. Every request a client built with MD5 or SHA-512 ever sends goes
    to [http://<host>/cgi/json-req] and carries for key a hex digest of
    the algorithm's size, whatever the server has answered before. *)
Theorem sent_keys_are_hexdigests
  (m : AuthenticationMethods) (h user password : string)
  (calls : list (operation * io)) :
  Forall (fun rq => rq_url rq = "http://" +:+ h +:+ "/cgi/json-req"
                    /\ is_hexdigest (digest_size m) (rq_auth_key rq))
    (wire (run repr calls (fresh (__init__ h user password (Member m))))).
Proof.
  assert (Hgen : forall w,
             authentication_method (self w) = Member m ->
             host (self w) = h ->
             Forall (fun rq => rq_url rq = "http://" +:+ h +:+ "/cgi/json-req"
                               /\ is_hexdigest (digest_size m) (rq_auth_key rq)) (wire w) ->
             Forall (fun rq => rq_url rq = "http://" +:+ h +:+ "/cgi/json-req"
                               /\ is_hexdigest (digest_size m) (rq_auth_key rq))
               (wire (run repr calls w))).
  { induction calls as [|[op env] calls IH]; intros w Hm Hh Hall; [exact Hall|].
    cbn [run]. destruct (perform_keeps_credentials op env w) as (Hh' & _ & Hm' & _).
    apply IH.
    - now rewrite Hm'.
    - now rewrite Hh'.
    - now apply wire_invariant_step. }
  apply Hgen; [reflexivity | reflexivity | constructor].
Qed.

Lemma bind_ret_snd {A B} (m : M A) (f : A -> B) (w : world) :
  (bind m (fun x => ret (f x)) w).2 = (m w).2.
Proof. unfold bind, ret. destruct (m w) as [[a|e] w']; reflexivity. Qed.

(** X9. What each operation puts on the wire, on a client whose server
    nonce is a text: one request holding one action, with priority set for
    [login] only; the action's method is [logIn], [getValue] or [reboot]
    and its xpath the node the operation is about ([login] has none);
    [login] names the user, [reboot] gives [GUI] for source. *)
Theorem operation_requests (op : operation) (env : io) (w : world) (sn : string) :
  _server_nonce (self w) = VStr sn ->
  exists rq action,
    wire (perform repr op env w).2 = (wire w ++ [rq])%list
    /\ rq_priority rq = match op with Login => true | _ => false end
    /\ rq_actions rq = VList [action]
    /\ action.["method"] = Ok (VStr (op_method op))
    /\ action.["xpath"] = match op_xpath op with
                          | Some x => Ok (VStr x)
                          | None => Raise KeyError
                          end
    /\ (op = Login ->
        (parameters <-? action.["parameters"] ;; parameters.["user"])
        = Ok (VStr (username (self w))))
    /\ (op = Reboot ->
        (parameters <-? action.["parameters"] ;; parameters.["source"])
        = Ok (VStr "GUI")).
Proof.
  intros Hs. destruct op; cbn [perform op_method op_xpath].
  - rewrite bind_ret_snd, login_run. cbv zeta.
    rewrite (api_request_exact _ _ _ _ _ Hs). cbn [fst snd].
    eexists _, _. split.
    { destruct (outcome (http env)) as [response|]; [|reflexivity].
      destruct (__get_response_value response 0) as [data|]; [|reflexivity].
      destruct (data.["id"]) as [id|]; [|reflexivity].
      destruct (is_not_None id); [|reflexivity].
      destruct (data.["nonce"]) as [nonce|]; [|reflexivity].
      destruct (is_not_None nonce); reflexivity. }
    cbn [rq_priority rq_actions]. repeat split; try discriminate.
  - unfold get_device_info. rewrite bind_lift_run, (api_request_exact _ _ _ _ _ Hs).
    cbn [snd wire]. eexists _, _. split; [reflexivity|].
    cbn [rq_priority rq_actions]. repeat split; discriminate.
  - unfold get_port_mappings. rewrite bind_lift_run, (api_request_exact _ _ _ _ _ Hs).
    cbn [snd wire]. eexists _, _. split; [reflexivity|].
    cbn [rq_priority rq_actions]. repeat split; discriminate.
  - unfold get_hosts. rewrite bind_lift_run, (api_request_exact _ _ _ _ _ Hs).
    cbn [snd wire]. eexists _, _. split; [reflexivity|].
    cbn [rq_priority rq_actions]. repeat split; discriminate.
  - unfold reboot. rewrite bind_lift_run, (api_request_exact _ _ _ _ _ Hs).
    cbn [snd wire]. eexists _, _. split; [reflexivity|].
    cbn [rq_priority rq_actions]. repeat split; discriminate.
Qed.

(** X10. [login] when the unwrapped parameters are a [dict] that lacks a
    key or holds a null: without [id] it raises [KeyError]; with a null
    [id] it returns [False], whether [nonce] is there or not; with an [id]
    but no [nonce] it raises [KeyError]; with an [id] and a null [nonce] it
    returns [False]. *)
Theorem login_partial_parameters
  (env : io) (w : world) (response : value) (d : gmap string value) :
  (__api_request_async repr (VList [login_actions (self w)]) true env w).1 = Ok response ->
  __get_response_value response 0 = Ok (VDict d) ->
  (d !! "id" = None -> (login repr env w).1 = Raise KeyError)
  /\ (d !! "id" = Some VNone -> (login repr env w).1 = Ok false)
  /\ (forall id, d !! "id" = Some id -> id <> VNone -> d !! "nonce" = None ->
        (login repr env w).1 = Raise KeyError)
  /\ (forall id, d !! "id" = Some id -> id <> VNone -> d !! "nonce" = Some VNone ->
        (login repr env w).1 = Ok false).
Proof.
  intros Hsent Hdata. rewrite login_run. cbv zeta. rewrite Hsent, Hdata.
  cbn [subscript]. repeat split.
  - intros ->. reflexivity.
  - intros ->. reflexivity.
  - intros id -> Hid ->. apply is_not_None_true in Hid. now rewrite Hid.
  - intros id -> Hid ->. apply is_not_None_true in Hid. now rewrite Hid.
Qed.

End Exchanges.

(** The theorems above at the examples, with a [repr] that prints every
    compound value alike. *)

Lemma request_envelope_witness :
  exists rq,
    wire (__api_request_async plain_repr (VList []) true (answered unauthorized_reply)
            new_client).2 = [rq]
    /\ rq_url rq = "http://192.168.1.1/cgi/json-req"
    /\ rq_id rq = 0
    /\ rq_session_id rq = "0"
    /\ rq_auth_key rq = "9d5ddbb700fa9669f7c2a1cc79ec72a8".
Proof.
  destruct (request_envelope plain_repr (VList []) true (answered unauthorized_reply) new_client ""
              eq_refl) as (rq & Hw & Hu & Hi & Hs & _ & _ & _ & Hk & _).
  exists rq. split; [exact Hw|]. split; [exact Hu|]. split; [exact Hi|].
  split; [exact Hs|]. rewrite Hk. vm_compute. reflexivity.
Defined.

Lemma request_path_result_witness :
  let sent := __api_request_async plain_repr (VList []) false (answered unauthorized_reply)
                new_client in
  sent.1 = Ok (VStr "Unauthorized") /\ stdout sent.2 = ["Unauthorized"].
Proof.
  refine (proj1 (proj2 (request_path_result plain_repr (VList []) false (answered unauthorized_reply)
                          new_client "" unauthorized_reply eq_refl eq_refl)) _).
  discriminate.
Defined.

Lemma reads_return_unwrapped_parameters_witness :
  (perform plain_repr GetHosts (answered (reply_with (VList [laptop; phone]))) new_client).1
  = Ok (VList [laptop; phone]).
Proof.
  etransitivity.
  - eapply (reads_return_unwrapped_parameters plain_repr GetHosts
              (answered (reply_with (VList [laptop; phone]))) new_client "").
    + discriminate.
    + reflexivity.
    + reflexivity.
    + reflexivity.
    + reflexivity.
    + vm_compute. reflexivity.
    + vm_compute. reflexivity.
  - vm_compute. reflexivity.
Defined.

Lemma transport_error_raises_TypeError_witness :
  (perform plain_repr Login (answered unauthorized_reply) new_client).1 = Raise TypeError.
Proof.
  refine (proj1 (transport_error_raises_TypeError plain_repr Login (answered unauthorized_reply)
                   new_client "" unauthorized_reply eq_refl eq_refl _)).
  discriminate.
Defined.

Lemma non_text_nonce_blocks_every_call_witness :
  (perform plain_repr GetHosts (answered (reply_with (VList []))) (numeric_nonce_client plain_repr)).1
  = Raise TypeError
  /\ length (wire (run plain_repr [ (GetHosts, answered (reply_with (VList [])));
                              (Login, answered (reply_with (VDict ∅))) ]
                     (numeric_nonce_client plain_repr))) = 1%nat.
Proof.
  assert (H : forall sn, _server_nonce (self (numeric_nonce_client plain_repr)) <> VStr sn).
  { intros sn. vm_compute. discriminate. }
  destruct (non_text_nonce_blocks_every_call plain_repr (numeric_nonce_client plain_repr)
              [ (GetHosts, answered (reply_with (VList [])));
                (Login, answered (reply_with (VDict ∅))) ] H) as (Hp & Hw & _).
  split; [apply Hp|]. rewrite Hw. vm_compute. reflexivity.
Defined.

Lemma reads_keep_session_witness :
  let env := answered (reply_with (VDict {[ "id" := VInt 9; "nonce" := VStr "xyz" ]})) in
  _session_id (self (perform plain_repr Reboot env new_client).2) = VInt 0
  /\ _server_nonce (self (perform plain_repr Reboot env new_client).2) = VStr "".
Proof.
  intros env. refine (reads_keep_session plain_repr Reboot env new_client _). discriminate.
Defined.

Lemma operation_requests_witness :
  exists rq action,
    wire (perform plain_repr GetHosts (answered unauthorized_reply) new_client).2 = [rq]
    /\ rq_priority rq = false
    /\ rq_actions rq = VList [action]
    /\ action.["xpath"] = Ok (VStr "Device/Hosts/Hosts").
Proof.
  destruct (operation_requests plain_repr GetHosts (answered unauthorized_reply) new_client ""
              eq_refl) as (rq & action & Hw & Hp & Ha & _ & Hx & _).
  exists rq, action. auto.
Defined.

Lemma login_partial_parameters_witness :
  (login plain_repr (answered (reply_with (VDict {[ "id" := VNone ]}))) new_client).1 = Ok false
  /\ (login plain_repr (answered (reply_with (VDict {[ "id" := VInt 5 ]}))) new_client).1
     = Raise KeyError.
Proof.
  split.
  - refine (proj1 (proj2 (login_partial_parameters plain_repr
                            (answered (reply_with (VDict {[ "id" := VNone ]}))) new_client
                            (reply_body (reply_with (VDict {[ "id" := VNone ]})))
                            {[ "id" := VNone ]} _ _)) _).
    + vm_compute. reflexivity.
    + vm_compute. reflexivity.
    + vm_compute. reflexivity.
  - refine (proj1 (proj2 (proj2 (login_partial_parameters plain_repr
                            (answered (reply_with (VDict {[ "id" := VInt 5 ]}))) new_client
                            (reply_body (reply_with (VDict {[ "id" := VInt 5 ]})))
                            {[ "id" := VInt 5 ]} _ _))) (VInt 5) _ _ _).
    + vm_compute. reflexivity.
    + vm_compute. reflexivity.
    + vm_compute. reflexivity.
    + discriminate.
    + vm_compute. reflexivity.
Defined.

(* ===================================================================== *)
(** * Unwrapping a response *)
(* ===================================================================== *)

Section Unwrapping.

Lemma subscript_head (x : value) (l : list value) : (VList (x :: l)).[#0] = Ok x.
Proof.
  unfold subscript, position. cbn [length].
  destruct (Z.ltb_spec 0 (Z.of_nat (S (length l)))); [reflexivity | lia].
Qed.

Lemma subscript_key (m : gmap string value) (k : string) (v : value) :
  m !! k = Some v -> (VDict m).[k] = Ok v.
Proof. intros H. cbn [subscript]. now rewrite H. Qed.

(** X11. Where a [dict] on the way lacks the key asked of it, the
    unwrapping functions yield [None]: no [reply]; a [reply] without
    [error], or without [actions]; a first action without [callbacks]; a
    first callback without [parameters]. Where every key is there they
    yield what is stored under the last one. *)
Theorem missing_keys_unwrap_to_None
  (m r a c : gmap string value) (rest rest' : list value) (e p : value) :
  (m !! "reply" = None ->
   __get_response_error (VDict m) = Ok VNone /\ __get_response_value (VDict m) 0 = Ok VNone)
  /\ (m !! "reply" = Some (VDict r) -> r !! "error" = None ->
      __get_response_error (VDict m) = Ok VNone)
  /\ (m !! "reply" = Some (VDict r) -> r !! "error" = Some e ->
      __get_response_error (VDict m) = Ok e)
  /\ (m !! "reply" = Some (VDict r) -> r !! "actions" = None ->
      __get_response_value (VDict m) 0 = Ok VNone)
  /\ (m !! "reply" = Some (VDict r) -> r !! "actions" = Some (VList (VDict a :: rest)) ->
      a !! "callbacks" = None ->
      __get_response_value (VDict m) 0 = Ok VNone)
  /\ (m !! "reply" = Some (VDict r) -> r !! "actions" = Some (VList (VDict a :: rest)) ->
      a !! "callbacks" = Some (VList (VDict c :: rest')) ->
      (c !! "parameters" = None -> __get_response_value (VDict m) 0 = Ok VNone)
      /\ (c !! "parameters" = Some p -> __get_response_value (VDict m) 0 = Ok p)).
Proof.
  unfold __get_response_error, __get_response_value.
  split; [intros H; cbn [subscript]; now rewrite H|].
  split; [intros H H'; cbn [subscript]; rewrite H; cbn [rbind subscript]; now rewrite H'|].
  split; [intros H H'; cbn [subscript]; rewrite H; cbn [rbind subscript]; now rewrite H'|].
  split; [intros H H'; cbn [subscript]; rewrite H; cbn [rbind subscript]; now rewrite H'|].
  split.
  - intros H H' H''. cbn [subscript]. rewrite H. cbn [rbind]. rewrite (subscript_key _ _ _ H').
    cbn [rbind]. rewrite subscript_head. cbn [rbind subscript]. now rewrite H''.
  - intros H H' H''. split; intros H3.
    + cbn [subscript]. rewrite H. cbn [rbind]. rewrite (subscript_key _ _ _ H').
      cbn [rbind]. rewrite subscript_head. cbn [rbind]. rewrite (subscript_key _ _ _ H'').
      cbn [rbind]. rewrite subscript_head. cbn [rbind subscript]. now rewrite H3.
    + cbn [subscript]. rewrite H. cbn [rbind]. rewrite (subscript_key _ _ _ H').
      cbn [rbind]. rewrite subscript_head. cbn [rbind]. rewrite (subscript_key _ _ _ H'').
      cbn [rbind]. rewrite subscript_head. cbn [rbind subscript]. now rewrite H3.
Qed.

End Unwrapping.

(* ===================================================================== *)
(** * More on host records *)
(* ===================================================================== *)

Section RawHosts.

Lemma rbind_ext {A B} (r : result A) (f g : A -> result B) :
  (forall x, f x = g x) -> rbind r f = rbind r g.
Proof. intros H. destruct r; [apply H | reflexivity]. Qed.

Lemma parse_loop_app (only_active : bool) (pre post : list value) (acc : list Device) :
  parse_loop only_active (pre ++ post) acc
  = (devices <-? parse_loop only_active pre acc ;; parse_loop only_active post devices).
Proof.
  revert acc. induction pre as [|d pre IH]; intros acc; [reflexivity|].
  cbn [app parse_loop].
  destruct (wanted only_active d) as [[|]|]; cbn [rbind]; [|apply IH|reflexivity].
  destruct (make_device d); cbn [rbind]; [apply IH | reflexivity].
Qed.

(** X12. [make_device] returns a record exactly for the well-formed raw
    hosts: a [dict] holding the eleven keys it always reads, with a text
    for [PhysAddress], and with [HostName] unless [UserHostName] is
    truthy. *)
Theorem make_device_succeeds_iff (d : value) :
  (exists dev, make_device d = Ok dev) <-> well_formed_host d.
Proof.
  split.
  - intros [dev H]. unfold make_device in H.
    destruct d as [| | | | | |m]; try discriminate H.
    cbn [subscript] in H.
    destruct (m !! "PhysAddress") as [phys|] eqn:E1; [|discriminate]. cbn [rbind] in H.
    destruct phys as [| | | |phys| |]; try discriminate H. cbn [call_upper rbind] in H.
    destruct (m !! "IPAddress") eqn:E2; [|discriminate]. cbn [rbind] in H.
    destruct (m !! "IPv4Addresses") eqn:E3; [|discriminate]. cbn [rbind] in H.
    destruct (m !! "IPv6Addresses") eqn:E4; [|discriminate]. cbn [rbind] in H.
    destruct (m !! "AddressSource") eqn:E5; [|discriminate]. cbn [rbind] in H.
    destruct (m !! "UserHostName") as [u|] eqn:E6; [|discriminate]. cbn [rbind] in H.
    unfold or_else in H.
    destruct (truthy u) eqn:Et.
    + cbn [rbind] in H.
      destruct (m !! "InterfaceType") eqn:E7; [|discriminate]. cbn [rbind] in H.
      destruct (m !! "Active") eqn:E8; [|discriminate]. cbn [rbind] in H.
      destruct (m !! "UserFriendlyName") eqn:E9; [|discriminate]. cbn [rbind] in H.
      destruct (m !! "DetectedDeviceType") eqn:E10; [|discriminate]. cbn [rbind] in H.
      destruct (m !! "UserDeviceType") eqn:E11; [|discriminate].
      exists m. split; [reflexivity|]. split; [|split].
      * unfold required_keys. repeat constructor; eauto.
      * eauto.
      * intros u' Hu' Hf. rewrite E6 in Hu'. injection Hu' as <-. congruence.
    + destruct (m !! "HostName") eqn:E12; [|discriminate]. cbn [rbind] in H.
      destruct (m !! "InterfaceType") eqn:E7; [|discriminate]. cbn [rbind] in H.
      destruct (m !! "Active") eqn:E8; [|discriminate]. cbn [rbind] in H.
      destruct (m !! "UserFriendlyName") eqn:E9; [|discriminate]. cbn [rbind] in H.
      destruct (m !! "DetectedDeviceType") eqn:E10; [|discriminate]. cbn [rbind] in H.
      destruct (m !! "UserDeviceType") eqn:E11; [|discriminate].
      exists m. split; [reflexivity|]. split; [|split].
      * unfold required_keys. repeat constructor; eauto.
      * eauto.
      * intros u' _ _. eauto.
  - intros (m & -> & Hkeys & (phys & Hphys) & Hhost).
    unfold required_keys in Hkeys.
    repeat match goal with
           | H : Forall _ (_ :: _) |- _ => apply Forall_cons in H as [[? ?] H]
           end.
    unfold make_device. cbn [subscript]. rewrite Hphys.
    repeat match goal with
           | H : m !! ?k = Some _ |- context [m !! ?k] => rewrite H
           end.
    cbn [rbind call_upper]. unfold or_else.
    match goal with
    | H : m !! "UserHostName" = Some ?u |- _ =>
        destruct (truthy u) eqn:Et;
        [|destruct (Hhost u H Et) as [hn Hhn]; rewrite Hhn]; cbn [rbind]; eauto
    end.
Qed.

(** X13. A raw host whose [UserHostName] is truthy needs no [HostName]:
    the name is taken from [UserHostName] and [HostName] is never read, so
    removing it changes nothing. *)
Theorem host_name_is_optional (m : gmap string value) (u : value) :
  m !! "UserHostName" = Some u ->
  truthy u = true ->
  make_device (VDict (delete "HostName" m)) = make_device (VDict m)
  /\ forall dev, make_device (VDict m) = Ok dev -> name dev = u.
Proof.
  intros Hu Ht. split.
  - unfold make_device. cbn [subscript].
    repeat match goal with
           | |- context [delete "HostName" m !! ?k] =>
               lazymatch k with
               | "HostName" => fail
               | _ => rewrite (lookup_delete_ne m "HostName" k) by discriminate
               end
           end.
    rewrite Hu. cbn [rbind]. unfold or_else. rewrite Ht. reflexivity.
  - intros dev H.
    destruct (make_device_fields _ _ H) as (phys & user & _ & _ & Hu' & Hn & _).
    cbn [subscript] in Hu'. rewrite Hu in Hu'. injection Hu' as <-.
    unfold or_else in Hn. rewrite Ht in Hn. congruence.
Qed.

Lemma host_name_is_optional_witness :
  make_device (VDict (delete "HostName" (fields phone)))
  = Ok (host_device true "11:22:33:AA:BB:CC" "My phone").
Proof.
  rewrite (proj1 (host_name_is_optional (fields phone) (VStr "My phone")
                    eq_refl eq_refl)).
  vm_compute. reflexivity.
Defined.

(** X14. With [only_active] set, a raw host whose [Active] is falsy is
    passed over wherever it stands in the list, without another key of it
    being read: the result is the one for the list without it. *)
Theorem inactive_hosts_are_passed_over
  (pre post : list value) (d a : value) :
  d.["Active"] = Ok a ->
  truthy a = false ->
  parse_devices (VList (pre ++ d :: post)) true = parse_devices (VList (pre ++ post)) true.
Proof.
  intros Ha Ht. unfold parse_devices. cbn [iterate rbind].
  rewrite !parse_loop_app. apply rbind_ext. intros devices.
  cbn [parse_loop wanted negb]. rewrite Ha. cbn [rbind]. now rewrite Ht.
Qed.

Lemma inactive_hosts_are_passed_over_witness :
  parse_devices (VList [phone; VDict {[ "Active" := VBool false ]}; phone]) true
  = parse_devices (VList [phone; phone]) true.
Proof.
  apply (inactive_hosts_are_passed_over [phone] [phone]
           (VDict {[ "Active" := VBool false ]}) (VBool false)); reflexivity.
Defined.

(** X15. [parse_devices] gives all or nothing: when the hosts before [d]
    normalize and [d], which the filter lets through, does not, the call
    raises the exception [d] raised and returns no record, whatever
    follows [d]. *)
Theorem malformed_host_fails_the_call
  (pre post : list value) (devs : list Device) (d : value) (e : exn) :
  Forall2 normalizes_to pre devs ->
  make_device d = Raise e ->
  parse_devices (VList (pre ++ d :: post)) false = Raise e
  /\ (forall a, d.["Active"] = Ok a -> truthy a = true ->
        parse_devices (VList (pre ++ d :: post)) true = Raise e).
Proof.
  intros Hpre Hd. unfold parse_devices. cbn [iterate rbind].
  rewrite !parse_loop_app, (parse_loop_all pre devs []), (parse_loop_active pre devs []);
    try exact Hpre.
  cbn [rbind parse_loop wanted negb]. rewrite Hd. split; [reflexivity|].
  intros a Ha Ht. rewrite Ha. cbn [rbind]. now rewrite Ht.
Qed.

Lemma malformed_host_fails_the_call_witness :
  parse_devices (VList [phone; VDict {[ "Active" := VBool true ]}; laptop]) false
  = Raise KeyError.
Proof.
  refine (proj1 (malformed_host_fails_the_call [phone] [laptop]
                   [host_device true "11:22:33:AA:BB:CC" "My phone"]
                   (VDict {[ "Active" := VBool true ]}) KeyError _ _));
    [repeat constructor | vm_compute; reflexivity].
Defined.

Lemma parse_loop_length (only_active : bool) (items : list value) (acc devs : list Device) :
  parse_loop only_active items acc = Ok devs ->
  (length devs <= length acc + length items)%nat
  /\ (only_active = false -> length devs = (length acc + length items)%nat).
Proof.
  revert acc. induction items as [|d items IH]; intros acc H.
  - injection H as <-. cbn. lia.
  - cbn [parse_loop] in H.
    destruct (wanted only_active d) as [[|]|] eqn:Ew; cbn [rbind] in H; try discriminate.
    + destruct (make_device d); cbn [rbind] in H; [|discriminate].
      apply IH in H as [Hle Heq]. rewrite length_app in *. cbn [length] in *.
      split; [lia|]. intros Hf. specialize (Heq Hf). lia.
    + apply IH in H as [Hle Heq]. cbn [length]. split; [lia|].
      intros ->. discriminate Ew.
Qed.

(** X16. [parse_devices] never returns more records than it was given
    hosts, and with [only_active] unset it returns exactly one per
    host. *)
Theorem parse_devices_length (data : value) (only_active : bool) (devs : list Device) :
  parse_devices data only_active = Ok devs ->
  exists items,
    iterate data = Ok items
    /\ (length devs <= length items)%nat
    /\ (only_active = false -> length devs = length items).
Proof.
  unfold parse_devices. intros H.
  destruct (iterate data) as [items|]; cbn [rbind] in H; [|discriminate].
  exists items. split; [reflexivity|]. now apply parse_loop_length in H.
Qed.

Lemma parse_devices_length_witness :
  exists items,
    iterate (VList [laptop; phone]) = Ok items
    /\ (length [host_device true "11:22:33:AA:BB:CC" "My phone"] <= length items)%nat.
Proof.
  destruct (parse_devices_length (VList [laptop; phone]) true
              [host_device true "11:22:33:AA:BB:CC" "My phone"] eq_refl)
    as (items & Hi & Hle & _).
  exists items. split; [exact Hi | exact Hle].
Defined.

(** X17. Given anything but a list, [parse_devices] raises [TypeError],
    the empty text and the empty [dict] apart: [None], a number, or a
    text or [dict] that is not empty (its characters or keys are texts,
    which have no field to read). *)
Theorem parse_devices_needs_a_list (data : value) (only_active : bool) :
  (forall items, data <> VList items) ->
  data <> VStr "" ->
  data <> VDict ∅ ->
  parse_devices data only_active = Raise TypeError.
Proof.
  intros Hl Hs Hd. unfold parse_devices.
  destruct data as [| | | |s|items|m]; try reflexivity.
  - destruct s as [|c s]; [congruence|].
    cbn [iterate rbind list_ascii_of_string fmap list_fmap parse_loop].
    destruct only_active; reflexivity.
  - now destruct (Hl items).
  - cbn [iterate rbind].
    destruct (map_to_list m) as [|[k v] l] eqn:E.
    + apply map_to_list_empty_iff in E. congruence.
    + cbn [fmap list_fmap parse_loop]. destruct only_active; reflexivity.
Qed.

Lemma parse_devices_needs_a_list_witness :
  parse_devices VNone true = Raise TypeError.
Proof.
  apply (parse_devices_needs_a_list VNone true); discriminate.
Defined.

End RawHosts.

(* ===================================================================== *)
(** * Login against the server's reply *)
(* ===================================================================== *)

Section LoginReply.

Variable repr : value -> string.











End LoginReply.


